(** * gitignore-gen: template store, template validator and recommendation engine

    A shallow embedding of [gitignore_gen/template_manager.py] and
    [gitignore_gen/ai_recommendations.py], with the properties of the
    specification stated and proved about it.

    Conventions of the embedding.
    - A Python [str] is a Rocq [string]; every [ascii] stands for the Unicode
      code point of the same number, so the strings covered are those whose
      characters lie below U+0100.  The character classes used by
      [str.isalnum] and [str.strip] are the ones of the Unicode database on
      that range, and [str.encode()] is UTF-8.
    - A [dict] keyed by strings is a [gmap string _].
    - Code that raises returns a [result]; code that mutates [self] or the
      file system takes the state and returns the new one.
    - [datetime.now()] and the answer to [Confirm.ask] are arguments of the
      operation that consults them.
    - A timestamp of a JSON document is kept by the [datetime] value that
      [datetime.fromisoformat] reads from its text, or as a text the
      function cannot read; [isoformat] writes a text that reads back to
      the value it was made from.
    - The file system maps paths to what they hold.  Opening a file for
      writing raises when the directory of the path is not there, when the
      file name is longer than 255 bytes, and when the path is that of a
      directory; the directories [__init__] makes are there. *)

From Stdlib Require Import ZArith NArith QArith List Ascii String Bool Lia.
From Stdlib Require Import DecimalString Sorting.Permutation Sorting.Sorted.
From stdpp Require Import base option list strings gmap sorting.

Local Open Scope nat_scope.

(* ===================================================================== *)
(** * Python string primitives *)
(* ===================================================================== *)

Module PyStr.

Definition code (c : ascii) : N := N_of_ascii c.

Definition in_ranges (rs : list (N * N)) (c : ascii) : bool :=
  existsb (fun r => (fst r <=? code c)%N && (code c <=? snd r)%N) rs.

(** [c.isalnum()] for a single character below U+0100. *)
Definition isalnum_char : ascii -> bool :=
  in_ranges [(48, 57); (65, 90); (97, 122); (170, 170); (178, 179);
             (181, 181); (185, 186); (188, 190); (192, 214); (216, 246);
             (248, 255)]%N.

(** The characters [str.strip()] removes. *)
Definition isspace_char : ascii -> bool :=
  in_ranges [(9, 13); (28, 32); (133, 133); (160, 160)]%N.

Fixpoint all_chars (p : ascii -> bool) (s : string) : bool :=
  match s with
  | EmptyString => true
  | String c s' => p c && all_chars p s'
  end.

Fixpoint any_char (p : ascii -> bool) (s : string) : bool :=
  match s with
  | EmptyString => false
  | String c s' => p c || any_char p s'
  end.

Definition is_empty (s : string) : bool :=
  match s with EmptyString => true | _ => false end.

(** [s.isalnum()]: at least one character, and all of them alphanumeric. *)
Definition isalnum (s : string) : bool :=
  negb (is_empty s) && all_chars isalnum_char s.

(** [len(s)]. *)
Definition len (s : string) : nat := String.length s.

(** [s.replace(c, '')] for a one-character [c]. *)
Fixpoint remove_char (c : ascii) (s : string) : string :=
  match s with
  | EmptyString => EmptyString
  | String d s' =>
      if Ascii.eqb d c then remove_char c s' else String d (remove_char c s')
  end.

Fixpoint lstrip (s : string) : string :=
  match s with
  | EmptyString => EmptyString
  | String c s' => if isspace_char c then lstrip s' else s
  end.

Fixpoint rstrip (s : string) : string :=
  match s with
  | EmptyString => EmptyString
  | String c s' =>
      let r := rstrip s' in
      if is_empty r && isspace_char c then EmptyString else String c r
  end.

(** [s.strip()]. *)
Definition strip (s : string) : string := rstrip (lstrip s).

(** [s.split(sep)] for a one-character [sep]: never the empty list. *)
Fixpoint split (sep : ascii) (s : string) : list string :=
  match s with
  | EmptyString => [EmptyString]
  | String c s' =>
      if Ascii.eqb c sep then EmptyString :: split sep s'
      else match split sep s' with
           | h :: t => String c h :: t
           | [] => [String c EmptyString]
           end
  end.

(** [s.startswith(p)]. *)
Fixpoint startswith (p s : string) : bool :=
  match p, s with
  | EmptyString, _ => true
  | String a p', String b s' => Ascii.eqb a b && startswith p' s'
  | String _ _, EmptyString => false
  end.

Fixpoint rev_onto (s acc : string) : string :=
  match s with
  | EmptyString => acc
  | String c s' => rev_onto s' (String c acc)
  end.

Definition rev (s : string) : string := rev_onto s EmptyString.

(** [s.endswith(p)]. *)
Definition endswith (p s : string) : bool := startswith (rev p) (rev s).

(** [sub in s]. *)
Fixpoint contains (sub s : string) : bool :=
  startswith sub s ||
  match s with
  | EmptyString => false
  | String _ s' => contains sub s'
  end.

(** [str(n)] for a non-negative integer. *)
Definition of_nat (n : nat) : string := NilEmpty.string_of_uint (Nat.to_uint n).

(** [s.encode()]: UTF-8, one byte below U+0080 and two bytes above. *)
Fixpoint encode (s : string) : list N :=
  match s with
  | EmptyString => []
  | String c s' =>
      let n := code c in
      if (n <? 128)%N then n :: encode s'
      else (192 + N.shiftr n 6)%N :: (128 + N.land n 63)%N :: encode s'
  end.

(** The first letter of every word in upper case, the other letters in
    lower case ([s.title()]), on the letters A-Z and a-z. *)
Definition is_upper (c : ascii) : bool := in_ranges [(65, 90)%N] c.
Definition is_lower (c : ascii) : bool := in_ranges [(97, 122)%N] c.
Definition to_upper (c : ascii) : ascii :=
  if is_lower c then ascii_of_N (code c - 32) else c.
Definition to_lower (c : ascii) : ascii :=
  if is_upper c then ascii_of_N (code c + 32) else c.

Fixpoint title_from (prev_cased : bool) (s : string) : string :=
  match s with
  | EmptyString => EmptyString
  | String c s' =>
      String (if prev_cased then to_lower c else to_upper c)
             (title_from (is_upper c || is_lower c) s')
  end.

Definition title (s : string) : string := title_from false s.

End PyStr.

(** The line feed, and the one-character string made of it. *)
Definition LF : ascii := "010"%char.
Definition nl : string := String LF EmptyString.

Example strip_ex : PyStr.strip "  /a b/ " = "/a b/".
Proof. reflexivity. Qed.

Example split_ex : PyStr.split LF ("a" +:+ nl +:+ nl +:+ "b") = ["a"; ""; "b"].
Proof. reflexivity. Qed.

Example split_empty_ex : PyStr.split LF "" = [""].
Proof. reflexivity. Qed.

Example endswith_ex : PyStr.endswith "/" "build/" = true /\ PyStr.endswith "/" "" = false.
Proof. split; reflexivity. Qed.

Example contains_ex : PyStr.contains "**" "a/**/b" = true /\ PyStr.contains "**" "a*b*" = false.
Proof. split; reflexivity. Qed.

Example isalnum_ex :
  PyStr.isalnum "abcD12" = true /\ PyStr.isalnum "" = false /\ PyStr.isalnum "a b" = false.
Proof. repeat split; reflexivity. Qed.

Example of_nat_ex : PyStr.of_nat 0 = "0" /\ PyStr.of_nat 12 = "12".
Proof. split; reflexivity. Qed.

Example title_ex : PyStr.title "python" = "Python".
Proof. reflexivity. Qed.

(* ===================================================================== *)
(** * TemplateValidator *)
(* ===================================================================== *)

Module Validator.
Import PyStr.

(** The errors of [validate_template_content], before they are rendered:
    the line-independent one, and the two that carry the number and the
    trimmed text of the offending line. *)
Inductive content_error :=
| EmptyContent
| AbsolutePath (i : nat) (line : string)
| DoubleStar (i : nat) (line : string).

Definition error_line (e : content_error) : option nat :=
  match e with
  | EmptyContent => None
  | AbsolutePath i _ | DoubleStar i _ => Some i
  end.

(** The f-strings of the source. *)
Definition message (e : content_error) : string :=
  match e with
  | EmptyContent => "Template content cannot be empty"
  | AbsolutePath i line =>
      "Line " +:+ of_nat i +:+ ": Invalid pattern '" +:+ line
        +:+ "' - absolute paths should end with '/'"
  | DoubleStar i line =>
      "Line " +:+ of_nat i +:+ ": Invalid pattern '" +:+ line
        +:+ "' - '**' should be followed by '/'"
  end.

(** The body of the [for i, line in enumerate(lines, 1)] loop. *)
Definition check_line (i : nat) (raw : string) : list content_error :=
  let line := strip raw in
  if negb (is_empty line) && negb (startswith "#" line) then
    (if startswith "/" line && negb (endswith "/" line)
     then [AbsolutePath i line] else [])
    ++
    (if contains "**" line && negb (endswith "/" line)
     then [DoubleStar i line] else [])
  else [].

Fixpoint check_lines (i : nat) (lines : list string) : list content_error :=
  match lines with
  | [] => []
  | raw :: rest => check_line i raw ++ check_lines (S i) rest
  end.

Definition content_errors (content : string) : list content_error :=
  (if is_empty (strip content) then [EmptyContent] else [])
  ++ check_lines 1 (split LF content).

Definition validate_template_content (content : string) : bool * list string :=
  let errors := map message (content_errors content) in
  (Nat.eqb (length errors) 0, errors).

Definition msg_name_empty : string := "Template name cannot be empty".
Definition msg_name_long : string := "Template name too long (max 50 characters)".
Definition msg_name_alnum : string :=
  "Template name must be alphanumeric with optional hyphens/underscores".

(** [name.replace('-', '').replace('_', '').isalnum()]. *)
Definition name_is_alnum (name : string) : bool :=
  isalnum (remove_char "_" (remove_char "-" name)).

Definition validate_template_name (name : string) : bool * list string :=
  let errors :=
    (if is_empty name then [msg_name_empty] else [])
    ++ (if 50 <? len name then [msg_name_long] else [])
    ++ (if negb (name_is_alnum name) then [msg_name_alnum] else []) in
  (Nat.eqb (length errors) 0, errors).

(** ** The acceptance conditions as the specification words them *)

(** A line passes when it is a comment (its trimmed form starts with [#]),
    or is empty, or neither starts with [/] nor contains [**] without
    ending with [/]. *)
Definition spec_line_ok (line : string) : bool :=
  startswith "#" (strip line)
  || is_empty line
  || (implb (startswith "/" line) (endswith "/" line)
      && implb (contains "**" line) (endswith "/" line)).

Definition spec_content_ok (text : string) : bool :=
  forallb spec_line_ok (split LF text).

(** A character a name may hold: a letter, a digit, [-] or [_]. *)
Definition name_char (c : ascii) : bool :=
  isalnum_char c || Ascii.eqb c "-" || Ascii.eqb c "_".

Definition spec_name_ok (name : string) : bool :=
  negb (is_empty name) && (len name <=? 50) && all_chars name_char name.

(** What the validator checks on a line: the same rules on the trimmed
    line. *)
Definition line_ok (raw : string) : bool :=
  let line := strip raw in
  is_empty line
  || startswith "#" line
  || (implb (startswith "/" line) (endswith "/" line)
      && implb (contains "**" line) (endswith "/" line)).

End Validator.

Example validate_name_ok :
  Validator.validate_template_name "ab-cd_12" = (true, []).
Proof. reflexivity. Qed.

Example validate_name_empty :
  Validator.validate_template_name "" =
  (false, [Validator.msg_name_empty; Validator.msg_name_alnum]).
Proof. reflexivity. Qed.

Example validate_name_space :
  Validator.validate_template_name "a b" = (false, [Validator.msg_name_alnum]).
Proof. reflexivity. Qed.

Example validate_content_two_errors :
  Validator.validate_template_content ("*.log" +:+ nl +:+ "/abs/**") =
  (false,
   ["Line 2: Invalid pattern '/abs/**' - absolute paths should end with '/'";
    "Line 2: Invalid pattern '/abs/**' - '**' should be followed by '/'"]).
Proof. reflexivity. Qed.

(* ===================================================================== *)
(** * Properties of the validator *)
(* ===================================================================== *)

Section ValidatorFacts.
Import PyStr Validator.

Lemma is_empty_true s : is_empty s = true <-> s = EmptyString.
Proof. destruct s; simpl; split; congruence. Qed.

Lemma lstrip_all_space s : all_chars isspace_char (lstrip s) = all_chars isspace_char s.
Proof.
  induction s as [|c s IH]; simpl; [reflexivity|].
  destruct (isspace_char c) eqn:Hc; simpl; [exact IH | now rewrite Hc].
Qed.

Lemma rstrip_empty s : is_empty (rstrip s) = all_chars isspace_char s.
Proof.
  induction s as [|c s IH]; simpl; [reflexivity|].
  rewrite IH.
  destruct (all_chars isspace_char s), (isspace_char c); reflexivity.
Qed.

(** [s.strip()] is empty exactly when [s] holds nothing but white space. *)
Lemma strip_empty s : is_empty (strip s) = all_chars isspace_char s.
Proof. unfold strip. now rewrite rstrip_empty, lstrip_all_space. Qed.

Lemma split_all_chars p sep s :
  all_chars p s = true -> Forall (fun l => all_chars p l = true) (split sep s).
Proof.
  induction s as [|c s IH]; simpl; intros H.
  - repeat constructor.
  - apply andb_prop in H as [Hc Hs]. specialize (IH Hs).
    destruct (Ascii.eqb c sep).
    + constructor; [reflexivity | exact IH].
    + destruct (split sep s) as [|h t]; simpl.
      * repeat constructor. simpl. now rewrite Hc.
      * inversion IH; subst. constructor; [|assumption].
        simpl. now rewrite Hc.
Qed.

Lemma startswith_nonempty p s :
  is_empty p = false -> startswith p s = true -> is_empty s = false.
Proof. destruct p, s; simpl; congruence. Qed.

Lemma content_valid_iff content :
  fst (validate_template_content content) = true <-> content_errors content = [].
Proof.
  unfold validate_template_content; simpl. rewrite length_map.
  destruct (content_errors content); simpl; split; congruence.
Qed.

Lemma check_line_nil i raw : check_line i raw = [] <-> line_ok raw = true.
Proof.
  unfold check_line, line_ok; cbv zeta.
  destruct (is_empty (strip raw)), (startswith "#" (strip raw)),
    (startswith "/" (strip raw)), (contains "**" (strip raw)),
    (endswith "/" (strip raw)); simpl; split; congruence.
Qed.

Lemma check_lines_nil lines : forall i,
  check_lines i lines = [] <-> (forall raw, In raw lines -> line_ok raw = true).
Proof.
  induction lines as [|raw rest IH]; intros i; simpl.
  - split; [intros _ r [] | reflexivity].
  - split.
    + intros H. apply app_eq_nil in H as [H1 H2].
      intros r [<- | Hin]; [now apply (check_line_nil i) | now apply (IH (S i))].
    + intros H. rewrite (proj2 (check_line_nil i raw)) by (apply H; now left).
      simpl. apply IH. intros r Hr. apply H. now right.
Qed.

(** Every error of line [i] carries the number [i]. *)
Lemma check_line_number i raw :
  Forall (fun e => error_line e = Some i) (check_line i raw).
Proof.
  unfold check_line; cbv zeta.
  repeat match goal with |- context [if ?b then _ else _] => destruct b end;
    simpl; repeat constructor.
Qed.

Lemma check_lines_bounds lines : forall k,
  Forall (fun e => exists j, error_line e = Some j /\ k <= j < k + length lines)
         (check_lines k lines).
Proof.
  induction lines as [|raw rest IH]; intros k; simpl; [constructor|].
  apply Forall_app; split.
  - eapply Forall_impl; [apply check_line_number|].
    intros e He. exists k. split; [exact He | lia].
  - eapply Forall_impl; [apply IH|].
    intros e (j & Hj & Hb). exists j. split; [exact Hj | lia].
Qed.

Lemma check_lines_app l1 : forall l2 k,
  check_lines k (l1 ++ l2) = check_lines k l1 ++ check_lines (k + length l1) l2.
Proof.
  induction l1 as [|raw rest IH]; intros l2 k; simpl.
  - now rewrite Nat.add_0_r.
  - rewrite IH, <- app_assoc. now replace (S k + length rest) with (k + S (length rest)) by lia.
Qed.

(** The errors of the whole text, cut at line [i]. *)
Lemma check_lines_at lines k i raw :
  lines !! i = Some raw ->
  check_lines k lines =
    check_lines k (take i lines) ++ check_line (k + i) raw
      ++ check_lines (S (k + i)) (drop (S i) lines).
Proof.
  intros Hi.
  rewrite <- (take_drop_middle lines i raw Hi) at 1.
  rewrite check_lines_app. simpl.
  assert (Hlen : length (take i lines) = i).
  { apply length_take_le. apply lookup_lt_Some in Hi. lia. }
  now rewrite Hlen.
Qed.

Lemma omap_error_line_sorted lines : forall k,
  StronglySorted le (omap error_line (check_lines k lines)).
Proof.
  induction lines as [|raw rest IH]; intros k; simpl; [constructor|].
  rewrite omap_app.
  assert (Hlow : Forall (le k) (omap error_line (check_lines (S k) rest))).
  { apply Forall_forall. intros j Hj.
    apply list_elem_of_omap in Hj as (e & He & Hj).
    pose proof (check_lines_bounds rest (S k)) as Hb.
    rewrite Forall_forall in Hb. apply Hb in He as (j' & Hj' & Hlt).
    rewrite Hj in Hj'. injection Hj' as <-. lia. }
  assert (Hhere : Forall (eq k) (omap error_line (check_line k raw))).
  { apply Forall_forall. intros j Hj.
    apply list_elem_of_omap in Hj as (e & He & Hj).
    pose proof (check_line_number k raw) as Hb.
    rewrite Forall_forall in Hb. apply Hb in He. congruence. }
  induction Hhere as [|j l <- Hl IHl]; simpl; [apply IH|].
  constructor; [exact IHl|].
  apply Forall_app; split; [|exact Hlow].
  eapply Forall_impl; [exact Hl|]. intros ? <-. lia.
Qed.

Lemma append_cancel_l p a b : p +:+ a = p +:+ b -> a = b.
Proof. induction p as [|c p IH]; simpl; intros H; [exact H | injection H; auto]. Qed.

Lemma messages_differ i line :
  message (AbsolutePath i line) <> message (DoubleStar i line).
Proof.
  unfold message. intros H.
  repeat (apply append_cancel_l in H).
  discriminate H.
Qed.

Lemma rstrip_cons c s :
  isspace_char c = false -> rstrip (String c s) = String c (rstrip s).
Proof. intros H. cbn [rstrip]. now rewrite H, andb_false_r. Qed.

Lemma rstrip_keeps_stars s :
  contains "**" s = true -> contains "**" (rstrip s) = true.
Proof.
  induction s as [|c s IH]; [discriminate|].
  cbn [contains]. intros H. apply orb_prop in H as [H|H].
  - destruct s as [|c' s]; cbn [startswith] in H;
      destruct (Ascii.eqb_spec "*" c) as [<-|]; try discriminate H.
    destruct (Ascii.eqb_spec "*" c') as [<-|]; [|discriminate H].
    rewrite !rstrip_cons by reflexivity. reflexivity.
  - specialize (IH H). cbn [rstrip].
    assert (He : is_empty (rstrip s) = false) by (destruct (rstrip s); [discriminate IH | reflexivity]).
    rewrite He. cbn [andb contains]. rewrite IH. apply orb_true_r.
Qed.

(** A line that starts with [/] and contains [**] still does after
    trimming: the two readings of a line differ on its end alone. *)
Lemma strip_keeps_slash_and_stars raw :
  startswith "/" raw = true -> contains "**" raw = true ->
  startswith "/" (strip raw) = true /\ contains "**" (strip raw) = true.
Proof.
  intros Hs Hc.
  assert (Hl : lstrip raw = raw).
  { destruct raw as [|c s]; [reflexivity|]. cbn [startswith] in Hs.
    destruct (Ascii.eqb_spec "/" c) as [<-|]; [reflexivity | discriminate Hs]. }
  unfold strip. rewrite Hl. split; [|now apply rstrip_keeps_stars].
  destruct raw as [|c s]; [discriminate Hs|]. cbn [startswith] in Hs.
  destruct (Ascii.eqb_spec "/" c) as [<-|]; [|discriminate Hs].
  rewrite rstrip_cons by reflexivity. reflexivity.
Qed.

End ValidatorFacts.

Section ValidatorClaims.
Import PyStr Validator.

(** C2, as the code has it.  [validate_template_content] accepts a text if
    and only if the text is not made of white space only and every line of
    it, once trimmed, is empty, or is a comment, or both ends with [/] when
    it starts with [/] and ends with [/] when it contains [**]. *)
Theorem validate_content_accepts_iff content :
  fst (validate_template_content content) = true <->
  all_chars isspace_char content = false /\
  (forall raw, In raw (split LF content) -> line_ok raw = true).
Proof.
  rewrite content_valid_iff. unfold content_errors.
  rewrite strip_empty.
  destruct (all_chars isspace_char content); simpl.
  - split; [discriminate | intros [? _]; discriminate].
  - rewrite check_lines_nil. tauto.
Qed.

(** C2, the counterexample.  On the empty text every line is empty, so the
    condition of the claim holds, and the validator rejects the text with
    the message for empty content. *)
Lemma validate_content_rejects_empty_text :
  spec_content_ok EmptyString = true /\
  validate_template_content EmptyString = (false, ["Template content cannot be empty"]).
Proof. split; reflexivity. Qed.

(** The same on a text of two blank lines. *)
Example validate_content_rejects_blank_lines :
  spec_content_ok (nl +:+ nl) = true /\
  fst (validate_template_content (nl +:+ nl)) = false.
Proof. split; reflexivity. Qed.

Definition not_sep (c : ascii) : bool :=
  negb (Ascii.eqb c "-") && negb (Ascii.eqb c "_").

Lemma removed_all_alnum s :
  all_chars isalnum_char (remove_char "_" (remove_char "-" s)) = all_chars name_char s.
Proof.
  induction s as [|c s IH]; simpl; [reflexivity|].
  unfold name_char at 1.
  destruct (Ascii.eqb_spec c "-") as [->|Hd]; simpl; [exact IH|].
  destruct (Ascii.eqb_spec c "_") as [->|Hu]; simpl; [exact IH|].
  rewrite IH. now rewrite !orb_false_r.
Qed.

Lemma removed_nonempty s :
  negb (is_empty (remove_char "_" (remove_char "-" s))) = any_char not_sep s.
Proof.
  induction s as [|c s IH]; simpl; [reflexivity|].
  unfold not_sep at 1.
  destruct (Ascii.eqb_spec c "-") as [->|Hd]; simpl; [exact IH|].
  destruct (Ascii.eqb_spec c "_") as [->|Hu]; simpl; [exact IH | reflexivity].
Qed.

Lemma any_alnum_of_name_chars s :
  all_chars name_char s = true -> any_char not_sep s = any_char isalnum_char s.
Proof.
  induction s as [|c s IH]; simpl; [reflexivity|].
  intros H. apply andb_prop in H as [Hc Hs]. rewrite (IH Hs).
  f_equal. unfold name_char in Hc. unfold not_sep.
  destruct (Ascii.eqb_spec c "-") as [->|Hd]; [reflexivity|].
  destruct (Ascii.eqb_spec c "_") as [->|Hu]; [reflexivity|].
  simpl in *. now rewrite !orb_false_r in Hc.
Qed.

(** The check shared by the validator and by [create_template]: the name
    holds letters, digits, [-] and [_] only, and at least one letter or
    digit. *)
Lemma name_is_alnum_spec name :
  name_is_alnum name = all_chars name_char name && any_char isalnum_char name.
Proof.
  unfold name_is_alnum, isalnum.
  rewrite removed_all_alnum, removed_nonempty.
  destruct (all_chars name_char name) eqn:H.
  - rewrite (any_alnum_of_name_chars _ H). now rewrite andb_true_r.
  - now rewrite andb_false_r.
Qed.

Lemma any_char_nonempty p s : any_char p s = true -> is_empty s = false.
Proof. destruct s; simpl; congruence. Qed.

(** C3, as the code has it.  [validate_template_name] accepts a name if and
    only if it has at most 50 characters, all of them letters, digits, [-]
    or [_], and at least one of them a letter or a digit.  The error list
    holds, in this order and each at most once, the emptiness message when
    the name is empty, the length message when it has more than 50
    characters, and the character message when the name is not made of
    letters, digits, [-], [_] with at least one letter or digit; the three
    tests are made independently of one another. *)
Theorem validate_name_spec name :
  (fst (validate_template_name name) = true <->
     len name <= 50 /\ all_chars name_char name = true
     /\ any_char isalnum_char name = true) /\
  snd (validate_template_name name) =
    (if is_empty name then [msg_name_empty] else [])
    ++ (if 50 <? len name then [msg_name_long] else [])
    ++ (if all_chars name_char name && any_char isalnum_char name
        then [] else [msg_name_alnum]).
Proof.
  unfold validate_template_name; simpl.
  rewrite name_is_alnum_spec.
  split.
  - destruct (is_empty name) eqn:He.
    + apply is_empty_true in He as ->. simpl. split; [discriminate|].
      intros (_ & _ & H). discriminate H.
    + destruct (Nat.ltb_spec 50 (len name)) as [Hl|Hl]; simpl.
      * split; [discriminate | lia].
      * destruct (all_chars name_char name), (any_char isalnum_char name);
          simpl; split; try discriminate; try tauto;
          intros (_ & ? & ?); discriminate.
  - now destruct (all_chars name_char name && any_char isalnum_char name).
Qed.

(** C3, the counterexample.  The name [-] is not empty, has one character,
    and that character is allowed; the validator rejects it. *)
Lemma validate_name_rejects_lone_hyphen :
  spec_name_ok "-" = true /\
  validate_template_name "-" = (false, [msg_name_alnum]).
Proof. split; reflexivity. Qed.

(** C9, as the code has it.  The validator reads a line after trimming
    it.  When the trimmed form of line [i + 1] of a text starts with [/],
    contains [**] and does not end with [/], the text is rejected and the
    error list reads: the errors of
    earlier lines, then the absolute-path message and the double-star message
    of that line, two different strings in this order, then the errors of
    later lines.  For every text the line numbers of the error list never
    decrease. *)
Theorem validate_content_two_errors_one_line content i raw :
  split LF content !! i = Some raw ->
  startswith "/" (strip raw) = true ->
  contains "**" (strip raw) = true ->
  endswith "/" (strip raw) = false ->
  let abs := AbsolutePath (S i) (strip raw) in
  let star := DoubleStar (S i) (strip raw) in
  fst (validate_template_content content) = false /\
  (exists before after,
      snd (validate_template_content content) =
        map message before ++ [message abs; message star] ++ map message after
      /\ content_errors content = before ++ [abs; star] ++ after
      /\ Forall (fun e => exists j, error_line e = Some j /\ j < S i) before
      /\ Forall (fun e => exists j, error_line e = Some j /\ S i < j) after) /\
  message abs <> message star /\
  StronglySorted le (omap error_line (content_errors content)).
Proof.
  intros Hi Hslash Hstar Hend abs star.
  assert (Hne : is_empty (strip raw) = false).
  { eapply startswith_nonempty; [|exact Hslash]. reflexivity. }
  assert (Hhash : startswith "#" (strip raw) = false).
  { revert Hslash. destruct (strip raw) as [|c s]; [discriminate|].
    cbn [startswith].
    destruct (Ascii.eqb_spec "/" c) as [<-|]; intros H;
      [reflexivity | discriminate H]. }
  assert (Hline : check_line (S i) raw = [abs; star]).
  { unfold check_line; cbv zeta. now rewrite Hne, Hhash, Hslash, Hstar, Hend. }
  assert (Hws : all_chars isspace_char content = false).
  { destruct (all_chars isspace_char content) eqn:Hall; [|reflexivity].
    pose proof (split_all_chars _ LF _ Hall) as Hf.
    rewrite Forall_forall in Hf.
    assert (Hraw : all_chars isspace_char raw = true).
    { apply Hf. eapply list_elem_of_lookup_2. exact Hi. }
    rewrite <- strip_empty in Hraw. congruence. }
  assert (Herr : content_errors content =
    check_lines 1 (take i (split LF content)) ++ [abs; star]
      ++ check_lines (S (S i)) (drop (S i) (split LF content))).
  { unfold content_errors. rewrite strip_empty, Hws. simpl.
    rewrite (check_lines_at _ 1 i raw Hi). simpl. now rewrite Hline. }
  split; [|split; [|split]].
  - destruct (fst (validate_template_content content)) eqn:Hv; [|reflexivity].
    apply content_valid_iff in Hv. rewrite Hv in Herr.
    symmetry in Herr. apply app_eq_nil in Herr as [_ Herr].
    simpl in Herr. discriminate Herr.
  - eexists _, _. split; [|split; [exact Herr|split]].
    + unfold validate_template_content; simpl. rewrite Herr.
      now rewrite !map_app.
    + eapply Forall_impl; [apply check_lines_bounds|].
      intros e (j & Hj & Hb). exists j. split; [exact Hj|].
      assert (length (take i (split LF content)) <= i) by (rewrite length_take; lia).
      lia.
    + eapply Forall_impl; [apply check_lines_bounds|].
      intros e (j & Hj & Hb). exists j. split; [exact Hj | lia].
  - apply messages_differ.
  - unfold content_errors. rewrite omap_app.
    destruct (is_empty (strip content)); simpl; apply omap_error_line_sorted.
Qed.

(** C9, the theorem at the two-line text [*.log], [/abs/**]. *)
Lemma validate_content_two_errors_one_line_witness :
  let content := "*.log" +:+ nl +:+ "/abs/**" in
  split LF content !! 1 = Some "/abs/**" /\
  startswith "/" (strip "/abs/**") = true /\
  contains "**" (strip "/abs/**") = true /\
  endswith "/" (strip "/abs/**") = false /\
  fst (validate_template_content content) = false /\
  StronglySorted le (omap error_line (content_errors content)).
Proof.
  pose proof (validate_content_two_errors_one_line
                ("*.log" +:+ nl +:+ "/abs/**") 1 "/abs/**"
                eq_refl eq_refl eq_refl eq_refl) as (Hv & _ & _ & Hs).
  repeat split; assumption.
Defined.

(** C9, the counterexample.  The line [/a/**/] followed by a space is no
    comment, starts with [/], contains [**] and does not end with [/]; the
    text made of it is accepted, with no error, because the trimmed line
    ends with [/].  So is a text whose first line is [/a/**/] closed by a
    carriage return before the line feed. *)
Lemma validate_content_accepts_trailing_space :
  let line := "/a/**/ " in
  let crlf := "/a/**/" +:+ String "013" nl +:+ "*.log" in
  (startswith "#" (strip line) = false /\ startswith "/" line = true
   /\ contains "**" line = true /\ endswith "/" line = false) /\
  split LF line = [line] /\
  validate_template_content line = (true, []) /\
  (exists raw, split LF crlf !! 0 = Some raw
               /\ startswith "#" (strip raw) = false /\ startswith "/" raw = true
               /\ contains "**" raw = true /\ endswith "/" raw = false) /\
  validate_template_content crlf = (true, []).
Proof.
  cbv zeta. split; [repeat split|]. split; [reflexivity|]. split; [reflexivity|].
  split; [|reflexivity].
  eexists. split; [reflexivity|]. repeat split.
Qed.

End ValidatorClaims.

(* ===================================================================== *)
(** * SHA-256 ([hashlib.sha256]) *)
(* ===================================================================== *)

Module Sha256.

Local Open Scope N_scope.

Definition modulus : N := 0x100000000.
Definition add32 (a b : N) : N := (a + b) mod modulus.
Definition rotr (n x : N) : N :=
  N.lor (N.shiftr x n) (N.shiftl x (32 - n) mod modulus).
Definition not32 (x : N) : N := N.lxor x 0xffffffff.

Definition Ch (x y z : N) : N := N.lxor (N.land x y) (N.land (not32 x) z).
Definition Maj (x y z : N) : N :=
  N.lxor (N.lxor (N.land x y) (N.land x z)) (N.land y z).
Definition Sigma0 (x : N) : N := N.lxor (N.lxor (rotr 2 x) (rotr 13 x)) (rotr 22 x).
Definition Sigma1 (x : N) : N := N.lxor (N.lxor (rotr 6 x) (rotr 11 x)) (rotr 25 x).
Definition sigma0 (x : N) : N := N.lxor (N.lxor (rotr 7 x) (rotr 18 x)) (N.shiftr x 3).
Definition sigma1 (x : N) : N := N.lxor (N.lxor (rotr 17 x) (rotr 19 x)) (N.shiftr x 10).

(** The first primes, by trial division. *)
Definition is_prime (n : N) : bool :=
  (1 <? n) && forallb (fun d => negb (n mod d =? 0))
                      (map N.of_nat (seq 2 (N.to_nat n - 2))).

Definition primes (count : nat) : list N :=
  take count (List.filter is_prime (map N.of_nat (seq 2 310))).

(** The greatest [r] below [2 ^ bits] with [r ^ k <= n]. *)
Fixpoint iroot (k : N) (bits : nat) (n r : N) : N :=
  match bits with
  | O => r
  | S b =>
      let candidate := r + 2 ^ N.of_nat b in
      iroot k b n (if candidate ^ k <=? n then candidate else r)
  end.

(** The first 32 bits of the fractional part of the [k]-th root of [p]. *)
Definition root_fraction (k p : N) : N :=
  iroot k 40 (p * 2 ^ (32 * k)) 0 mod modulus.

(** The initial hash value: from the square roots of the first 8 primes. *)
Definition H0 : list N := Eval vm_compute in map (root_fraction 2) (primes 8).

(** The round constants: from the cube roots of the first 64 primes. *)
Definition K : list N := Eval vm_compute in map (root_fraction 3) (primes 64).

(** The message followed by the byte 0x80, zero bytes up to 56 modulo 64,
    and the bit length on eight bytes, most significant first. *)
Definition be_bytes (count : nat) (x : N) : list N :=
  map (fun i => N.shiftr x (8 * N.of_nat i) mod 256) (rev (seq 0 count)).

Definition pad (msg : list N) : list N :=
  let l := length msg in
  let zeros := ((64 - ((l + 9) mod 64)) mod 64)%nat in
  msg ++ [0x80] ++ repeat 0 zeros ++ be_bytes 8 (8 * N.of_nat l).

Fixpoint be_word (bytes : list N) (acc : N) : N :=
  match bytes with
  | [] => acc
  | b :: rest => be_word rest (acc * 256 + b)
  end.

Fixpoint words (count : nat) (bytes : list N) : list N :=
  match count with
  | O => []
  | S n => be_word (take 4 bytes) 0 :: words n (drop 4 bytes)
  end.

(** The message schedule, latest word first. *)
Fixpoint schedule (count : nat) (ws : list N) : list N :=
  match count with
  | O => ws
  | S n =>
      let w := add32 (add32 (sigma1 (nth 1 ws 0)) (nth 6 ws 0))
                     (add32 (sigma0 (nth 14 ws 0)) (nth 15 ws 0)) in
      schedule n (w :: ws)
  end.

Definition round (st : list N) (kw : N * N) : list N :=
  match st with
  | [a; b; c; d; e; f; g; h] =>
      let t1 := add32 (add32 (add32 h (Sigma1 e)) (add32 (Ch e f g) (fst kw))) (snd kw) in
      let t2 := add32 (Sigma0 a) (Maj a b c) in
      [add32 t1 t2; a; b; c; add32 d t1; e; f; g]
  | _ => st
  end.

Definition compress (h : list N) (block : list N) : list N :=
  let w := rev (schedule 48 (rev (words 16 block))) in
  let st := fold_left round (combine K w) h in
  map (fun p => add32 (fst p) (snd p)) (combine h st).

Fixpoint blocks (count : nat) (h : list N) (bytes : list N) : list N :=
  match count with
  | O => h
  | S n => blocks n (compress h (take 64 bytes)) (drop 64 bytes)
  end.

Definition digest (msg : list N) : list N :=
  let padded := pad msg in
  blocks (length padded / 64) H0 padded.

Definition hex_digit (d : N) : ascii :=
  if d <? 10 then ascii_of_N (48 + d) else ascii_of_N (87 + d).

Fixpoint hex_word (count : nat) (x : N) (acc : string) : string :=
  match count with
  | O => acc
  | S n => hex_word n (x / 16) (String (hex_digit (x mod 16)) acc)
  end.

(** [hashlib.sha256(msg).hexdigest()]. *)
Definition hexdigest (msg : list N) : string :=
  fold_right (fun w acc => hex_word 8 w acc) EmptyString (digest msg).

End Sha256.

Example sha256_empty :
  Sha256.hexdigest [] =
  "e3b0c44298fc1c149afbf4c8996fb92427ae41e4649b934ca495991b7852b855".
Proof. vm_compute. reflexivity. Qed.

Example sha256_abc :
  Sha256.hexdigest (PyStr.encode "abc") =
  "ba7816bf8f01cfea414140de5dae2223b00361a396177a9cb410ff61f20015ad".
Proof. vm_compute. reflexivity. Qed.

(** Inputs of 55, 56 and 64 bytes: one block exactly filled by the padding,
    and two blocks. *)
Example sha256_55 :
  Sha256.hexdigest (repeat 97%N 55) =
  "9f4390f8d30c2dd92ec9f095b65e2b9ae9b0a925a5258e241c9f1e910f734318".
Proof. vm_compute. reflexivity. Qed.

Example sha256_56 :
  Sha256.hexdigest (repeat 97%N 56) =
  "b35439a4ac6f0948b6d6f9e3c6af0f5f590ce20f1bde7090ef7970686ec6738a".
Proof. vm_compute. reflexivity. Qed.

Example sha256_64 :
  Sha256.hexdigest (repeat 97%N 64) =
  "ffe054fe7ae0cb6dc65c3af9b61d5209f439851db43d0ba5997337df154668eb".
Proof. vm_compute. reflexivity. Qed.

(** A character above U+007F is hashed through its two UTF-8 bytes. *)
Example sha256_e_acute :
  Sha256.hexdigest (PyStr.encode (String (ascii_of_N 233) EmptyString)) =
  "4a99557e4033c3539de2eb65472017cad5f9557f7a0625a09f1c3f6e2ba69c4c".
Proof. vm_compute. reflexivity. Qed.

(* ===================================================================== *)
(** * Timestamps ([datetime]) *)
(* ===================================================================== *)

Module Datetime.

Local Open Scope N_scope.

(** A [datetime] value.  [utcoffset] is the offset from UTC of an aware
    value, in microseconds; it is [None] on a naive value, such as
    [datetime.now()] returns. *)
Record datetime := {
  year : N; month : N; day : N;
  hour : N; minute : N; second : N; microsecond : N;
  utcoffset : option Z
}.

(** The text of a timestamp in a JSON document, kept by what
    [datetime.fromisoformat] makes of it: the value the text denotes, in
    whichever of the ISO 8601 spellings the function reads, or a text on
    which it raises [ValueError]. *)
Inductive timestamp :=
| IsoText (d : datetime)
| BadText (text : string).

(** [d.isoformat()]: a text that denotes [d]. *)
Definition isoformat (d : datetime) : timestamp := IsoText d.

(** [datetime.fromisoformat(ts)]; [None] stands for the [ValueError]. *)
Definition fromisoformat (ts : timestamp) : option datetime :=
  match ts with
  | IsoText d => Some d
  | BadText _ => None
  end.

End Datetime.

(* ===================================================================== *)
(** * TemplateManager *)
(* ===================================================================== *)

Module Store.
Import PyStr Datetime.

(** The dataclass [Template]. *)
Record Template := {
  name : string;
  description : string;
  content : string;
  author : string;
  version : string;
  tags : list string;
  technologies : list string;
  created_at : datetime;
  updated_at : datetime;
  downloads : Z;
  rating : Q;
  is_official : bool;
  is_custom : bool;
  file_size : Z;
  checksum : string
}.

(** [asdict(template)] with the two timestamps in ISO format: a template as
    it stands in a JSON document, read or written. *)
Record template_data := {
  d_name : string;
  d_description : string;
  d_content : string;
  d_author : string;
  d_version : string;
  d_tags : list string;
  d_technologies : list string;
  d_created_at : timestamp;
  d_updated_at : timestamp;
  d_downloads : Z;
  d_rating : Q;
  d_is_official : bool;
  d_is_custom : bool;
  d_file_size : Z;
  d_checksum : string
}.

Definition to_data (t : Template) : template_data :=
  {| d_name := name t; d_description := description t; d_content := content t;
     d_author := author t; d_version := version t; d_tags := tags t;
     d_technologies := technologies t;
     d_created_at := isoformat (created_at t);
     d_updated_at := isoformat (updated_at t);
     d_downloads := downloads t; d_rating := rating t;
     d_is_official := is_official t; d_is_custom := is_custom t;
     d_file_size := file_size t; d_checksum := checksum t |}.

(** The two [fromisoformat] calls followed by the construction of the
    [Template] from the dictionary; [None] when one of the timestamps does
    not parse. *)
Definition of_data (d : template_data) : option Template :=
  created ← fromisoformat (d_created_at d);
  updated ← fromisoformat (d_updated_at d);
  Some {| name := d_name d; description := d_description d;
          content := d_content d; author := d_author d;
          version := d_version d; tags := d_tags d;
          technologies := d_technologies d;
          created_at := created; updated_at := updated;
          downloads := d_downloads d; rating := d_rating d;
          is_official := d_is_official d; is_custom := d_is_custom d;
          file_size := d_file_size d; checksum := d_checksum d |}.

(** What a path of the file system holds.  A JSON document is the value
    [json.load] returns on it: the metadata index, an export document, or
    anything else, on which loading, the key lookups or the construction of
    the template raise.  A directory cannot be opened as a file. *)
Inductive file :=
| TextFile (text : string)
| MetadataFile (entries : gmap string template_data)
| ExportFile (template : template_data) (exported_at : timestamp)
             (exported_by : string)
| OtherFile
| Directory.

(** A [TemplateManager] together with the file system it works on. *)
Record state := {
  templates_db : gmap string Template;
  fs : gmap string file
}.

Definition templates_dir : string := "~/.gign/templates".
Definition custom_dir : string := templates_dir +:+ "/custom".
Definition community_dir : string := templates_dir +:+ "/community".
Definition metadata_file : string := templates_dir +:+ "/metadata.json".

(** [self.custom_dir / f"{name}.gitignore"]. *)
Definition template_file (n : string) : string :=
  custom_dir +:+ "/" +:+ n +:+ ".gitignore".

(** ** Opening a file for writing *)

(** [p.rpartition("/")]: the text before the last [/] of [p] and the text
    after it; [None] when [p] holds no [/]. *)
Fixpoint rsplit (p : string) : option (string * string) :=
  match p with
  | EmptyString => None
  | String c p' =>
      match rsplit p' with
      | Some (d, b) => Some (String c d, b)
      | None => if Ascii.eqb c "/" then Some (EmptyString, p') else None
      end
  end.

Definition NUL : ascii := "000"%char.

(** ["/".join(parts)]. *)
Fixpoint join (parts : list string) : string :=
  match parts with
  | [] => EmptyString
  | [part] => part
  | part :: rest => part +:+ "/" +:+ join rest
  end.

(** The directories [__init__] makes, the home directory [~] first. *)
Definition made_dirs : list string :=
  ["~"; "~/.gign"; templates_dir; custom_dir; community_dir].

(** A path that holds a directory: one that [__init__] has made, or one
    the file system lists. *)
Definition is_dir (files : gmap string file) (p : string) : bool :=
  existsb (String.eqb p) made_dirs
  || match files !! p with Some Directory => true | _ => false end.

(** One component of a path, followed from the directory [cur], itself a
    list of components: [[]] is the current directory and [[""]] the
    root.  An empty component and [.] stay, [..] goes up, and a name goes
    down when the directory holds a directory of that name. *)
Definition step (files : gmap string file) (cur : list string) (c : string)
    : option (list string) :=
  if is_empty c || String.eqb c "." then Some cur
  else if String.eqb c ".." then
    Some (if is_empty (List.last cur "..") && negb (Nat.eqb (length cur) 0) then cur
          else if String.eqb (List.last cur "..") ".." then cur ++ [".."]
          else removelast cur)
  else
    let next := cur ++ [c] in
    if is_dir files (join next) then Some next else None.

Fixpoint resolve (files : gmap string file) (cur : list string)
    (components : list string) : option (list string) :=
  match components with
  | [] => Some cur
  | c :: rest =>
      match step files cur c with
      | Some next => resolve files next rest
      | None => None
      end
  end.

(** Whether the path [d] leads to a directory: the empty text is the
    root, and every component is followed from the root or from the
    current directory. *)
Definition dir_exists (files : gmap string file) (d : string) : bool :=
  is_empty d
  || match resolve files (if startswith "/" d then [EmptyString] else [])
                   (split "/" d) with
     | Some _ => true
     | None => false
     end.

(** The longest file name, in bytes. *)
Definition name_max : nat := 255.

(** A file name the file system takes. *)
Definition base_fits (b : string) : bool :=
  negb (is_empty b) && negb (String.eqb b ".") && negb (String.eqb b "..")
  && (length (encode b) <=? name_max).

(** Whether the file [p] can be made, or made anew: the path holds no null
    character, its last component is a file name the file system takes,
    and the directory it names is there.  Where this fails, opening [p]
    for writing raises ([OSError], or [ValueError] on a null character)
    before anything is written. *)
Definition can_create (files : gmap string file) (p : string) : bool :=
  negb (any_char (Ascii.eqb NUL) p)
  && match rsplit p with
     | None => base_fits p
     | Some (d, b) => base_fits b && dir_exists files d
     end.

(** Whether [open(p, 'w')] succeeds: the file can be made and the path is
    not that of a directory. *)
Definition can_write (files : gmap string file) (p : string) : bool :=
  can_create files p && negb (is_dir files p).

(** The exceptions of the module are [ValueError]s; writing a file raises
    [OSError]. *)
Inductive exn :=
| ValueError (msg : string)
| OSError.

Definition InvalidName : exn := ValueError Validator.msg_name_alnum.
Definition DuplicateName (n : string) : exn :=
  ValueError ("Template '" +:+ n +:+ "' already exists").
Definition NotFound (n : string) : exn :=
  ValueError ("Template '" +:+ n +:+ "' not found").

Inductive result (A : Type) :=
| Ok (a : A)
| Raise (e : exn).
Arguments Ok {A} a.
Arguments Raise {A} e.

(** [_load_templates_database]: the entries of the metadata file, or the
    empty dictionary when the file is absent or reading it raises. *)
Definition _load_templates_database (files : gmap string file) : gmap string Template :=
  match files !! metadata_file with
  | Some (MetadataFile entries) =>
      if decide (map_Forall (fun _ d => is_Some (of_data d)) entries)
      then omap of_data entries
      else ∅
  | _ => ∅
  end.

(** [_save_templates_database]. *)
Definition _save_templates_database
    (db : gmap string Template) (files : gmap string file) : gmap string file :=
  <[metadata_file := MetadataFile (to_data <$> db)]> files.

(** [_calculate_checksum]. *)
Definition _calculate_checksum (c : string) : string :=
  Sha256.hexdigest (encode c).

(** [len(content.encode())]. *)
Definition byte_length (c : string) : Z := Z.of_nat (length (encode c)).

(** [create_template].  The content file is written before the database is
    touched: when it cannot be made, [write_text] raises and the store and
    the file system are as they were. *)
Definition create_template (s : state)
    (n descr c auth : string) (tgs techs : list string) (official : bool)
    (now : datetime) : result Template * state :=
  if is_empty n || negb (Validator.name_is_alnum n) then (Raise InvalidName, s)
  else if decide (is_Some (templates_db s !! n)) then (Raise (DuplicateName n), s)
  else if negb (can_create (fs s) (template_file n)) then (Raise OSError, s)
  else
    let template :=
      {| name := n; description := descr; content := c; author := auth;
         version := "1.0.0"; tags := tgs; technologies := techs;
         created_at := now; updated_at := now;
         downloads := 0; rating := 0;
         is_official := official; is_custom := true;
         file_size := byte_length c;
         checksum := _calculate_checksum c |} in
    let files := <[template_file n := TextFile c]> (fs s) in
    let db := <[n := template]> (templates_db s) in
    (Ok template,
     {| templates_db := db; fs := _save_templates_database db files |}).

(** [update_template].  The content file it writes is that of a name the
    store holds, made when the name entered the store. *)
Definition update_template (s : state) (n : string)
    (descr c : option string) (tgs techs : option (list string))
    (ver : option string) (now : datetime) : result Template * state :=
  match templates_db s !! n with
  | None => (Raise (NotFound n), s)
  | Some template =>
      let template :=
        {| name := name template;
           description := default (description template) descr;
           content := default (content template) c;
           author := author template;
           version := default (version template) ver;
           tags := default (tags template) tgs;
           technologies := default (technologies template) techs;
           created_at := created_at template;
           updated_at := now;
           downloads := downloads template;
           rating := rating template;
           is_official := is_official template;
           is_custom := is_custom template;
           file_size := from_option byte_length (file_size template) c;
           checksum := from_option _calculate_checksum (checksum template) c |} in
      let files :=
        match c with
        | Some c' => <[template_file n := TextFile c']> (fs s)
        | None => fs s
        end in
      let db := <[n := template]> (templates_db s) in
      (Ok template,
       {| templates_db := db; fs := _save_templates_database db files |})
  end.

(** [confirm] is the answer of [Confirm.ask], asked only without [force]. *)
Definition delete_template (s : state) (n : string) (force confirm : bool)
    : result bool * state :=
  match templates_db s !! n with
  | None => (Raise (NotFound n), s)
  | Some _ =>
      if negb force && negb confirm then (Ok false, s)
      else
        let db := delete n (templates_db s) in
        let files := _save_templates_database db (fs s) in
        (Ok true, {| templates_db := db; fs := delete (template_file n) files |})
  end.

Definition get_template (s : state) (n : string) : option Template :=
  templates_db s !! n.

(** [export_template].  When the output path cannot be opened for
    writing, the exception is caught and [False] returned, with nothing
    written. *)
Definition export_template (s : state) (n output_path : string) (now : datetime)
    : bool * state :=
  match get_template s n with
  | None => (false, s)
  | Some template =>
      if can_write (fs s) output_path then
        let doc := ExportFile (to_data template) (isoformat now) "gign" in
        (true, {| templates_db := templates_db s;
                  fs := <[output_path := doc]> (fs s) |})
      else (false, s)
  end.



(** The stored size and digest are those of the stored content. *)
Definition consistent (t : Template) : Prop :=
  file_size t = byte_length (content t)
  /\ checksum t = _calculate_checksum (content t).


End Store.

(* ===================================================================== *)
(** * Properties of the template store *)
(* ===================================================================== *)

Section StoreFacts.
Import PyStr Datetime Store.




(** ** The content file of a name that passes the name check *)

Lemma any_char_app p a b : any_char p (a +:+ b) = any_char p a || any_char p b.
Proof.
  induction a as [|c a IH]; simpl; [reflexivity|].
  now rewrite IH, orb_assoc.
Qed.

Lemma encode_app a b : encode (a +:+ b) = encode a ++ encode b.
Proof.
  induction a as [|c a IH]; simpl; [reflexivity|].
  destruct (code c <? 128)%N; simpl; now rewrite IH.
Qed.

Lemma encode_length_le a : length (encode a) <= 2 * String.length a.
Proof.
  induction a as [|c a IH]; simpl; [lia|].
  destruct (code c <? 128)%N; simpl; lia.
Qed.

Lemma rsplit_none b :
  any_char (fun c => Ascii.eqb c "/") b = false -> rsplit b = None.
Proof.
  induction b as [|c b IH]; simpl; [reflexivity|].
  intros H. apply orb_false_elim in H as [Hc Hb].
  now rewrite (IH Hb), Hc.
Qed.

Lemma rsplit_join a b :
  any_char (fun c => Ascii.eqb c "/") b = false ->
  rsplit (a +:+ String "/" b) = Some (a, b).
Proof.
  intros Hb. induction a as [|c a IH]; simpl.
  - now rewrite (rsplit_none b Hb).
  - now rewrite IH.
Qed.

Lemma name_char_plain c :
  Validator.name_char c = true ->
  Ascii.eqb c "/" = false /\ Ascii.eqb NUL c = false.
Proof.
  destruct c as [[] [] [] [] [] [] [] []]; intros H;
    solve [split; reflexivity | vm_compute in H; discriminate H].
Qed.

Lemma name_chars_plain n :
  all_chars Validator.name_char n = true ->
  any_char (fun c => Ascii.eqb c "/") n = false
  /\ any_char (Ascii.eqb NUL) n = false.
Proof.
  induction n as [|c n IH]; cbn [all_chars any_char]; [now split|].
  intros H. apply andb_prop in H as [Hc Hn].
  destruct (name_char_plain c Hc) as [-> ->]. now apply IH.
Qed.




Lemma string_length_app a b :
  String.length (a +:+ b) = String.length a + String.length b.
Proof. induction a as [|c a IH]; simpl; [reflexivity | now rewrite IH]. Qed.

Lemma long_name_not_dots b :
  2 < String.length b -> String.eqb b "." = false /\ String.eqb b ".." = false.
Proof.
  intros Hb. split; apply String.eqb_neq; intros ->; simpl in Hb; lia.
Qed.

(** Whether the content file of a name made of letters, digits, [-] and
    [_] can be made rests on the length of the name alone. *)
Lemma can_create_template_file files n :
  all_chars Validator.name_char n = true ->
  can_create files (template_file n)
  = (length (encode (n +:+ ".gitignore")) <=? name_max).
Proof.
  intros Hn. destruct (name_chars_plain n Hn) as [Hslash Hnul].
  unfold can_create, template_file.
  assert (Hb : any_char (fun c => Ascii.eqb c "/") (n +:+ ".gitignore") = false)
    by (rewrite any_char_app, Hslash; reflexivity).
  change ("/" +:+ n +:+ ".gitignore") with (String "/" (n +:+ ".gitignore")).
  rewrite (rsplit_join custom_dir _ Hb).
  rewrite any_char_app. cbn [any_char]. rewrite any_char_app, Hnul.
  replace (any_char (Ascii.eqb NUL) custom_dir) with false by reflexivity.
  replace (dir_exists files custom_dir) with true by reflexivity.
  cbn [orb negb andb]. unfold base_fits.
  assert (Hlen : 2 < String.length (n +:+ ".gitignore")).
  { rewrite string_length_app. simpl. lia. }
  destruct (long_name_not_dots _ Hlen) as [-> ->].
  destruct n; simpl; now rewrite ?andb_true_r.
Qed.

Lemma name_is_alnum_chars n :
  Validator.name_is_alnum n = true -> all_chars Validator.name_char n = true.
Proof.
  rewrite name_is_alnum_spec. intros H. now apply andb_prop in H as [H _].
Qed.

(** A name of at most 50 characters that passes the name check has a
    content file that can be made. *)
Lemma short_name_can_create files n :
  Validator.name_is_alnum n = true -> len n <= 50 ->
  can_create files (template_file n) = true.
Proof.
  intros Ha Hlen. rewrite can_create_template_file by now apply name_is_alnum_chars.
  apply Nat.leb_le. rewrite encode_app, length_app.
  pose proof (encode_length_le n). unfold len in Hlen.
  change (length (encode ".gitignore")) with 10. unfold name_max. lia.
Qed.



(** What a successful [create_template] has checked and done. *)
Lemma create_template_result s n descr c auth tgs techs official now t s' :
  create_template s n descr c auth tgs techs official now = (Ok t, s') ->
  (is_empty n = false /\ Validator.name_is_alnum n = true)
  /\ templates_db s !! n = None
  /\ t = {| name := n; description := descr; content := c; author := auth;
            version := "1.0.0"; tags := tgs; technologies := techs;
            created_at := now; updated_at := now;
            downloads := 0; rating := 0;
            is_official := official; is_custom := true;
            file_size := byte_length c;
            checksum := _calculate_checksum c |}
  /\ templates_db s' = <[n := t]> (templates_db s).
Proof.
  unfold create_template.
  destruct (is_empty n) eqn:He; simpl; [discriminate|].
  destruct (Validator.name_is_alnum n) eqn:Ha; simpl; [|discriminate].
  destruct (decide _) as [Hin|Hout]; [discriminate|].
  destruct (negb (can_create _ _)); [discriminate|].
  intros H. injection H as <- <-. simpl. repeat split.
  destruct (templates_db s !! n) eqn:Hl; [|reflexivity].
  exfalso. apply Hout. eauto.
Qed.

(** When [create_template] succeeds, and what it then returns. *)
Lemma create_template_ok s n descr c auth tgs techs official now :
  is_empty n = false -> Validator.name_is_alnum n = true ->
  templates_db s !! n = None ->
  can_create (fs s) (template_file n) = true ->
  let t := {| name := n; description := descr; content := c; author := auth;
              version := "1.0.0"; tags := tgs; technologies := techs;
              created_at := now; updated_at := now;
              downloads := 0; rating := 0;
              is_official := official; is_custom := true;
              file_size := byte_length c;
              checksum := _calculate_checksum c |} in
  create_template s n descr c auth tgs techs official now
  = (Ok t,
     {| templates_db := <[n := t]> (templates_db s);
        fs := _save_templates_database (<[n := t]> (templates_db s))
                (<[template_file n := TextFile c]> (fs s)) |}).
Proof.
  intros He Ha Hfree Hw. cbv zeta. unfold create_template.
  rewrite He, Ha, Hw. cbn [orb negb].
  destruct (decide _) as [[t0 Ht0]|_]; [congruence | reflexivity].
Qed.







End StoreFacts.

(** The store and the file system before anything was created. *)
Definition empty_store : Store.state :=
  {| Store.templates_db := ∅; Store.fs := ∅ |}.

Definition noon : Datetime.datetime :=
  {| Datetime.year := 2024; Datetime.month := 5; Datetime.day := 17;
     Datetime.hour := 12; Datetime.minute := 0; Datetime.second := 0;
     Datetime.microsecond := 0; Datetime.utcoffset := None |}.



(** [c * n]. *)
Fixpoint repeat_char (c : ascii) (n : nat) : string :=
  match n with
  | O => EmptyString
  | S n' => String c (repeat_char c n')
  end.


(** The template [create_template] makes of the name [my-tpl], and the
    store it leaves when called on the empty one. *)
Definition my_tpl : Store.Template :=
  {| Store.name := "my-tpl";
     Store.description := "d";
     Store.content := "*.log";
     Store.author := "me";
     Store.version := "1.0.0";
     Store.tags := [];
     Store.technologies := [];
     Store.created_at := noon;
     Store.updated_at := noon;
     Store.downloads := 0;
     Store.rating := 0;
     Store.is_official := false;
     Store.is_custom := true;
     Store.file_size := Store.byte_length "*.log";
     Store.checksum := Store._calculate_checksum "*.log" |}.

Definition my_tpl_store : Store.state :=
  {| Store.templates_db := <["my-tpl" := my_tpl]> ∅;
     Store.fs :=
       Store._save_templates_database (<["my-tpl" := my_tpl]> ∅)
         (<[Store.template_file "my-tpl" := Store.TextFile "*.log"]> ∅) |}.

(** Files that can and cannot be written, in a file system that lists no
    directory: the content file of a name of 245 letters but not that of
    246, whose file name has 256 bytes; not a content file in a directory
    that is not there, but one placed in the templates directory by [..];
    a file of the current directory, but no file of a missing directory,
    and not the custom directory itself. *)
Example can_create_ex :
  map (fun n => Store.can_create ∅ (Store.template_file n))
      [repeat_char "a" 245; repeat_char "a" 246; "a/b"; "../x"; ""]
  = [true; false; false; true; true].
Proof. vm_compute. reflexivity. Qed.

Example can_write_ex :
  map (Store.can_write ∅)
      ["out.json"; "./out.json"; "no/such/dir/out.json"; Store.custom_dir;
       Store.templates_dir +:+ "/out.json"; "out/"]
  = [true; true; false; false; true; false].
Proof. vm_compute. reflexivity. Qed.

Section StoreSamples.
Import PyStr Datetime Store.

Lemma my_tpl_created :
  create_template empty_store "my-tpl" "d" "*.log" "me" [] [] false noon
  = (Ok my_tpl, my_tpl_store).
Proof.
  apply (create_template_ok empty_store "my-tpl" "d" "*.log" "me" [] [] false noon);
    [reflexivity | reflexivity | apply lookup_empty|].
  apply short_name_can_create; [reflexivity | simpl; lia].
Qed.

Lemma my_tpl_held : templates_db my_tpl_store !! "my-tpl" = Some my_tpl.
Proof. apply lookup_insert_eq. Qed.





End StoreSamples.

Section StoreClaims.
Import PyStr Datetime Store.




(** C4, as the code has it.  [create_template] raises its name error and
    leaves the store and the file system as they were for every name that
    is empty or that, with [-] and [_] removed, is not alphanumeric: a name
    holding a character other than a letter, a digit, [-] or [_], or no
    letter or digit at all. *)
Theorem create_rejects_bad_name s n descr c auth tgs techs official now :
  is_empty n = true \/ Validator.name_is_alnum n = false ->
  create_template s n descr c auth tgs techs official now = (Raise InvalidName, s).
Proof.
  intros H. unfold create_template.
  destruct H as [-> | ->]; [reflexivity|].
  now rewrite orb_true_r.
Qed.

(** C4, the theorem at the name [a b]. *)
Lemma create_rejects_bad_name_witness :
  (is_empty "a b" = true \/ Validator.name_is_alnum "a b" = false) /\
  create_template empty_store "a b" "d" "*.log" "me" [] [] false noon
  = (Raise InvalidName, empty_store).
Proof.
  assert (H : is_empty "a b" = true \/ Validator.name_is_alnum "a b" = false)
    by (right; reflexivity).
  split; [exact H|].
  apply (create_rejects_bad_name empty_store "a b" "d" "*.log" "me" [] [] false noon H).
Defined.

(** C4, the counterexample.  A name of 51 letters is rejected by
    [validate_template_name] for its length, and [create_template] accepts
    it and stores the template. *)
Lemma create_accepts_overlong_name :
  let n := repeat_char "a" 51 in
  let r := create_template empty_store n "d" "*.log" "me" [] [] false noon in
  Validator.validate_template_name n = (false, [Validator.msg_name_long]) /\
  (exists t, fst r = Ok t /\ templates_db (snd r) !! n = Some t) /\
  snd r <> empty_store.
Proof.
  cbv zeta. split; [reflexivity|].
  rewrite create_template_ok;
    [|reflexivity|reflexivity|apply lookup_empty|].
  2:{ rewrite can_create_template_file by reflexivity. reflexivity. }
  cbn [fst snd templates_db]. split.
  - eexists. split; [reflexivity | apply lookup_insert_eq].
  - intros H. apply (f_equal templates_db) in H. cbn [templates_db empty_store] in H.
    apply (f_equal (fun m => m !! repeat_char "a" 51)) in H.
    rewrite lookup_insert_eq, lookup_empty in H. discriminate.
Qed.

Lemma filter_key_singleton (m : gmap string Template) n t :
  m !! n = Some t ->
  filter (fun kv => fst kv = n) m = {[ n := t ]}.
Proof.
  intros Hm. apply map_eq. intros k.
  destruct (decide (k = n)) as [->|Hne].
  - rewrite lookup_singleton_eq. apply map_lookup_filter_Some. now split.
  - rewrite lookup_singleton_ne by congruence.
    apply map_lookup_filter_None. right. intros x _. exact Hne.
Qed.

(** C7.  When a call of [create_template] for the name [n] succeeded and
    returned the template [t], a later call for [n] on any store that still
    holds [t] under [n] raises the duplicate-name error and returns the
    store and the file system as they were: the store holds exactly one
    template under [n], and it is [t], whose content and other fields are
    those of the first call. *)
Theorem create_existing_name_fails
    s0 d0 c0 a0 tg0 te0 o0 now0 s1 t s n descr c auth tgs techs official now :
  create_template s0 n d0 c0 a0 tg0 te0 o0 now0 = (Ok t, s1) ->
  templates_db s !! n = Some t ->
  let r := create_template s n descr c auth tgs techs official now in
  fst r = Raise (DuplicateName n) /\
  snd r = s /\
  templates_db (snd r) !! n = Some t /\
  size (filter (fun kv => fst kv = n) (templates_db (snd r))) = 1 /\
  content t = c0 /\
  t = {| name := n; description := d0; content := c0; author := a0;
         version := "1.0.0"; tags := tg0; technologies := te0;
         created_at := now0; updated_at := now0;
         downloads := 0; rating := 0;
         is_official := o0; is_custom := true;
         file_size := byte_length c0;
         checksum := _calculate_checksum c0 |}.
Proof.
  intros Hfirst Hheld.
  apply create_template_result in Hfirst as ((He & Ha) & _ & Ht & _).
  assert (Hr : create_template s n descr c auth tgs techs official now
               = (Raise (DuplicateName n), s)).
  { unfold create_template. rewrite He, Ha. simpl.
    destruct (decide _) as [_|Hn]; [reflexivity|].
    exfalso. apply Hn. eauto. }
  cbv zeta. rewrite Hr. simpl.
  split; [reflexivity|]. split; [reflexivity|]. split; [exact Hheld|].
  split; [|split; [now rewrite Ht | exact Ht]].
  rewrite (filter_key_singleton _ _ _ Hheld). apply map_size_singleton.
Qed.

(** C7, the theorem at two calls for [my-tpl] on the empty store. *)
Lemma create_existing_name_fails_witness :
  let first := create_template empty_store "my-tpl" "d" "*.log" "me" [] [] false noon in
  exists t,
    first = (Ok t, snd first) /\
    templates_db (snd first) !! "my-tpl" = Some t /\
    create_template (snd first) "my-tpl" "other" "*.tmp" "you" [] [] true noon
    = (Raise (DuplicateName "my-tpl"), snd first) /\
    content t = "*.log".
Proof.
  cbv zeta. rewrite my_tpl_created. cbn [snd].
  exists my_tpl. split; [reflexivity|]. split; [exact my_tpl_held|].
  destruct (create_existing_name_fails _ _ _ _ _ _ _ _ _ _ my_tpl_store "my-tpl"
              "other" "*.tmp" "you" [] [] true noon my_tpl_created my_tpl_held)
    as (H1 & H2 & _ & _ & H5 & _).
  split; [|exact H5].
  destruct (create_template my_tpl_store "my-tpl" "other" "*.tmp" "you" [] [] true noon).
  simpl in *. now subst.
Defined.




(** C10.  A successful [update_template] stores and returns the template
    with [updated_at] set to the current time, whatever arguments are
    supplied; when none is supplied, the template stored and returned
    differs from the one held before in [updated_at] alone. *)
Theorem update_sets_updated_at s n t descr c tgs techs ver now :
  templates_db s !! n = Some t ->
  (exists t',
      fst (update_template s n descr c tgs techs ver now) = Ok t'
      /\ templates_db (snd (update_template s n descr c tgs techs ver now)) !! n = Some t'
      /\ updated_at t' = now) /\
  (exists t',
      fst (update_template s n None None None None None now) = Ok t'
      /\ templates_db (snd (update_template s n None None None None None now)) !! n
         = Some t'
      /\ updated_at t' = now
      /\ name t' = name t /\ description t' = description t
      /\ content t' = content t /\ file_size t' = file_size t
      /\ checksum t' = checksum t /\ tags t' = tags t
      /\ technologies t' = technologies t /\ version t' = version t
      /\ author t' = author t /\ created_at t' = created_at t
      /\ downloads t' = downloads t /\ rating t' = rating t
      /\ is_official t' = is_official t /\ is_custom t' = is_custom t).
Proof.
  intros Ht. unfold update_template. rewrite Ht. cbn [fst snd templates_db].
  split; eexists; (split; [reflexivity|]); rewrite lookup_insert_eq;
    (split; [reflexivity|]); repeat split.
Qed.

(** C10, the theorem at a template created in the empty store. *)
Lemma update_sets_updated_at_witness :
  let s := snd (create_template empty_store "my-tpl" "d" "*.log" "me" [] [] false noon) in
  let later :=
    {| year := 2025; month := 1; day := 2; hour := 3; minute := 4; second := 5;
       microsecond := 6; utcoffset := None |} in
  exists t t',
    templates_db s !! "my-tpl" = Some t /\
    fst (update_template s "my-tpl" None None None None None later) = Ok t' /\
    updated_at t' = later /\ content t' = content t /\ created_at t' = noon.
Proof.
  cbv zeta. rewrite my_tpl_created. cbn [snd].
  destruct (update_sets_updated_at my_tpl_store "my-tpl" _ None None None None None
              {| year := 2025; month := 1; day := 2; hour := 3; minute := 4;
                 second := 5; microsecond := 6; utcoffset := None |} my_tpl_held)
    as (_ & t' & Hok & _ & Hup & _ & _ & Hcontent & _ & _ & _ & _ & _ & _ & Hcr & _).
  exists my_tpl, t'. split; [exact my_tpl_held|]. split; [exact Hok|].
  split; [exact Hup|]. split; [exact Hcontent | exact Hcr].
Defined.

End StoreClaims.

(* ===================================================================== *)
(** * [list.sort(key=..., reverse=True)] *)
(* ===================================================================== *)

(** The contract of [list.sort] with [reverse=True]: the elements in
    descending order of their keys, those of equal keys in the order they
    had.  The model inserts every element in front of the first one whose
    key is not greater than its own. *)
Section StableSort.
Context {A : Type}.
Variable lt : A -> A -> bool.

Fixpoint insert_desc (x : A) (l : list A) : list A :=
  match l with
  | [] => [x]
  | y :: ys => if lt x y then y :: insert_desc x ys else x :: y :: ys
  end.

Fixpoint sort_desc (l : list A) : list A :=
  match l with
  | [] => []
  | x :: xs => insert_desc x (sort_desc xs)
  end.

(** Neither element is below the other. *)
Definition tied (a b : A) : bool := negb (lt a b) && negb (lt b a).

Lemma insert_desc_perm x l : Permutation (x :: l) (insert_desc x l).
Proof.
  induction l as [|y ys IH]; simpl; [reflexivity|].
  destruct (lt x y); [|reflexivity].
  rewrite perm_swap. now apply perm_skip.
Qed.

Lemma sort_desc_perm l : Permutation l (sort_desc l).
Proof.
  induction l as [|x xs IH]; simpl; [constructor|].
  rewrite <- insert_desc_perm. now apply perm_skip.
Qed.

Hypothesis lt_asym : forall a b, lt a b = true -> lt b a = false.
Hypothesis lt_cotrans : forall a b c, lt a c = true -> lt a b = true \/ lt b c = true.

Lemma insert_desc_sorted x l :
  StronglySorted (fun a b => lt a b = false) l ->
  StronglySorted (fun a b => lt a b = false) (insert_desc x l).
Proof.
  induction l as [|y ys IH]; simpl; intros Hs.
  - repeat constructor.
  - inversion Hs as [|? ? Hys Hy]; subst.
    destruct (lt x y) eqn:Hxy.
    + constructor; [now apply IH|].
      rewrite Forall_forall. intros z Hz.
      apply list_elem_of_In in Hz.
      apply (Permutation_in _ (Permutation_sym (insert_desc_perm x ys))) in Hz.
      destruct Hz as [<-|Hz]; [now apply lt_asym|].
      rewrite Forall_forall in Hy. apply Hy. now apply list_elem_of_In.
    + constructor; [exact Hs|]. constructor; [exact Hxy|].
      rewrite Forall_forall in Hy |- *. intros z Hz.
      destruct (lt x z) eqn:Hxz; [|reflexivity].
      destruct (lt_cotrans _ y _ Hxz) as [H|H]; [congruence|].
      rewrite (Hy z Hz) in H. discriminate.
Qed.

Lemma sort_desc_sorted l :
  StronglySorted (fun a b => lt a b = false) (sort_desc l).
Proof.
  induction l as [|x xs IH]; simpl; [constructor | now apply insert_desc_sorted].
Qed.

Lemma insert_desc_stable r x l :
  List.filter (tied r) (insert_desc x l) = List.filter (tied r) (x :: l).
Proof.
  induction l as [|y ys IH]; [reflexivity|].
  cbn [insert_desc]. destruct (lt x y) eqn:Hxy; [|reflexivity].
  cbn [List.filter] in IH |- *. rewrite IH.
  destruct (tied r y) eqn:Hy, (tied r x) eqn:Hx; try reflexivity.
  exfalso. unfold tied in Hy, Hx.
  apply andb_prop in Hy as [Hy _], Hx as [_ Hx].
  apply negb_true_iff in Hy, Hx.
  destruct (lt_cotrans _ r _ Hxy) as [H|H]; congruence.
Qed.

Lemma sort_desc_stable r l :
  List.filter (tied r) (sort_desc l) = List.filter (tied r) l.
Proof.
  induction l as [|x xs IH]; [reflexivity|].
  cbn [sort_desc]. rewrite insert_desc_stable.
  cbn [List.filter]. now rewrite IH.
Qed.

(** In a sorted list no element stands after one that is below it. *)
Lemma sorted_no_inversion l l1 a l2 b l3 :
  StronglySorted (fun a b => lt a b = false) l ->
  l = l1 ++ a :: l2 ++ b :: l3 -> lt a b = false.
Proof.
  intros Hs ->. apply StronglySorted_app_1_r in Hs.
  inversion Hs as [|? ? _ Hall]; subst.
  rewrite Forall_forall in Hall. apply Hall.
  apply list_elem_of_In, in_or_app. right. now left.
Qed.

End StableSort.

(* ===================================================================== *)
(** * AIRecommendationEngine *)
(* ===================================================================== *)

Module Engine.
Import PyStr.

(** The dataclass [Recommendation]. *)
Record Recommendation := {
  title : string;
  description : string;
  priority : string;
  category : string;
  action : string;
  confidence : Q;
  reasoning : string
}.

(** What one run reads of the project directory: the dictionary
    [_analyze_project_structure] returns, the result of
    [project_path.rglob("*.log")], and the names of the directories that
    [project_path.iterdir()] yields. *)
Record Project := {
  file_types : gmap string nat;
  sensitive_files : list string;
  large_files : list string;
  cache_dirs : list string;
  log_files : list string;
  root_dirs : list string
}.

(** [_load_community_patterns]. *)
Definition community_patterns : list (string * list string) :=
  [ ("python",
     ["*.pyc"; "__pycache__/"; ".pytest_cache/"; ".coverage";
      "htmlcov/"; ".tox/"; ".venv/"; "venv/"; ".mypy_cache/"]);
    ("node",
     ["node_modules/"; "npm-debug.log*"; "yarn-debug.log*"; "yarn-error.log*";
      ".npm"; ".eslintcache"; ".next/"; "out/"; ".nuxt/"]);
    ("java",
     ["target/"; "*.class"; "*.jar"; ".gradle/"; "build/";
      ".idea/"; ".eclipse/"; "*.iml"]) ].

(** [self.community_patterns[tech]], when [tech in self.community_patterns]. *)
Definition patterns_of (tech : string) : option (list string) :=
  snd <$> List.find (fun entry => String.eqb (fst entry) tech) community_patterns.

Definition is_nil {A} (l : list A) : bool :=
  match l with [] => true | _ => false end.

Definition _generate_security_recommendations (p : Project) : list Recommendation :=
  (if is_nil (sensitive_files p) then []
   else [ {| title := "Sensitive Files Detected";
             description := "Found " +:+ of_nat (length (sensitive_files p))
                            +:+ " potentially sensitive files";
             priority := "critical";
             category := "security";
             action := "Review and add appropriate patterns to .gitignore";
             confidence := 0.95;
             reasoning :=
               "Sensitive files like .env, .key, .pem files should never be committed" |} ])
  ++
  (let config_files :=
     List.filter (contains "config") (map fst (map_to_list (file_types p))) in
   if is_nil config_files then []
   else [ {| title := "Configuration Files";
             description := "Configuration files detected that may contain sensitive data";
             priority := "high";
             category := "security";
             action := "Review config files and add sensitive ones to .gitignore";
             confidence := 0.8;
             reasoning :=
               "Configuration files often contain API keys, passwords, or other secrets" |} ]).

Definition _generate_performance_recommendations (p : Project) : list Recommendation :=
  (if is_nil (large_files p) then []
   else [ {| title := "Large Files Detected";
             description := "Found " +:+ of_nat (length (large_files p))
                            +:+ " files larger than 10MB";
             priority := "high";
             category := "performance";
             action := "Add large files to .gitignore or use Git LFS";
             confidence := 0.9;
             reasoning :=
               "Large files slow down git operations and increase repository size" |} ])
  ++
  (if is_nil (cache_dirs p) then []
   else [ {| title := "Cache Directories";
             description := "Found " +:+ of_nat (length (cache_dirs p))
                            +:+ " cache directories";
             priority := "medium";
             category := "performance";
             action := "Add cache directories to .gitignore";
             confidence := 0.85;
             reasoning :=
               "Cache directories contain temporary files that should not be committed" |} ]).

(** [d.name in ["build", "dist", "out"]]. *)
Definition is_build_dir (d : string) : bool :=
  String.eqb d "build" || String.eqb d "dist" || String.eqb d "out".

Definition build_dirs (p : Project) : list string :=
  List.filter is_build_dir (root_dirs p).

Definition _generate_best_practice_recommendations (p : Project) : list Recommendation :=
  (if is_nil (log_files p) then []
   else [ {| title := "Log Files";
             description := "Found " +:+ of_nat (length (log_files p)) +:+ " log files";
             priority := "medium";
             category := "best_practice";
             action := "Add *.log to .gitignore";
             confidence := 0.9;
             reasoning :=
               "Log files contain runtime information and should not be committed" |} ])
  ++
  (if is_nil (build_dirs p) then []
   else [ {| title := "Build Output Directories";
             description := "Found " +:+ of_nat (length (build_dirs p))
                            +:+ " build output directories";
             priority := "high";
             category := "best_practice";
             action := "Add build output directories to .gitignore";
             confidence := 0.95;
             reasoning :=
               "Build outputs are generated files that should not be committed" |} ]).

(** The patterns of [patterns] that are no substring of the existing
    ignore text; all of them when there is no text, or an empty one. *)
Definition missing_patterns (patterns : list string) (existing_gitignore : option string)
    : list string :=
  match existing_gitignore with
  | Some text =>
      if is_empty text then patterns
      else List.filter (fun pattern => negb (contains pattern text)) patterns
  | None => patterns
  end.

Definition technology_recommendation (tech : string) (missing : list string)
    : Recommendation :=
  {| title := PyStr.title tech +:+ " Best Practices";
     description := "Missing " +:+ of_nat (length missing)
                    +:+ " recommended patterns for " +:+ tech;
     priority := "high";
     category := "best_practice";
     action := "Add " +:+ tech +:+ "-specific patterns to .gitignore";
     confidence := 0.9;
     reasoning := "Community best practices for " +:+ tech +:+ " projects" |}.

Fixpoint _generate_technology_recommendations
    (technologies : list string) (existing_gitignore : option string)
    : list Recommendation :=
  match technologies with
  | [] => []
  | tech :: rest =>
      match patterns_of tech with
      | Some patterns =>
          let missing := missing_patterns patterns existing_gitignore in
          if is_nil missing then []
          else [technology_recommendation tech missing]
      | None => []
      end
      ++ _generate_technology_recommendations rest existing_gitignore
  end.

(** [_priority_score]: [scores.get(priority, 1)]. *)
Definition _priority_score (p : string) : Z :=
  if String.eqb p "low" then 1
  else if String.eqb p "medium" then 2
  else if String.eqb p "high" then 3
  else if String.eqb p "critical" then 4
  else 1.

(** The key of the sort, and the order of Python on the key tuples. *)
Definition sort_key (r : Recommendation) : Z * Q :=
  (_priority_score (priority r), confidence r).

Definition key_lt (a b : Z * Q) : bool :=
  (fst a <? fst b)%Z
  || ((fst a =? fst b)%Z && negb (Qle_bool (snd b) (snd a))).

Definition rec_lt (a b : Recommendation) : bool := key_lt (sort_key a) (sort_key b).

(** The four lists in the order [analyze_project_and_recommend] extends
    [recommendations] with them. *)
Definition collected (p : Project) (detected_technologies : list string)
    (existing_gitignore : option string) : list Recommendation :=
  _generate_security_recommendations p
  ++ _generate_performance_recommendations p
  ++ _generate_best_practice_recommendations p
  ++ _generate_technology_recommendations detected_technologies existing_gitignore.

(** [analyze_project_and_recommend] from the point where the directory has
    been read: [p] is what the readings gave.  The run on a directory,
    readings included, is [Structure.analyze_directory]. *)
Definition analyze_project_and_recommend (p : Project)
    (detected_technologies : list string) (existing_gitignore : option string)
    : list Recommendation :=
  sort_desc rec_lt (collected p detected_technologies existing_gitignore).

(** The order of the specification on two recommendations: [a] may stand
    before [b] when its priority score is greater, or equal with a
    confidence that is not smaller. *)
Definition key_ge (a b : Recommendation) : Prop :=
  (_priority_score (priority b) < _priority_score (priority a))%Z
  \/ (_priority_score (priority b) = _priority_score (priority a)
      /\ (confidence b <= confidence a)%Q).

(** Equal priority score and equal confidence. *)
Definition same_key (a b : Recommendation) : Prop :=
  _priority_score (priority a) = _priority_score (priority b)
  /\ (confidence a == confidence b)%Q.

End Engine.

Example priority_scores :
  Engine._priority_score "low" = 1%Z /\ Engine._priority_score "medium" = 2%Z /\
  Engine._priority_score "high" = 3%Z /\ Engine._priority_score "critical" = 4%Z.
Proof. repeat split. Qed.

(* ===================================================================== *)
(** * Properties of the recommendation engine *)
(* ===================================================================== *)

Lemma StronglySorted_weaken {A} (R R' : A -> A -> Prop) l :
  (forall a b, R a b -> R' a b) -> StronglySorted R l -> StronglySorted R' l.
Proof.
  intros HR Hs. induction Hs as [|x l Hs IH Hall]; constructor; [exact IH|].
  eapply Forall_impl; [exact Hall|]. intros b. apply HR.
Qed.

Section EngineFacts.
Import PyStr Engine.

Lemma key_lt_spec a b :
  key_lt a b = true <->
  (fst a < fst b)%Z \/ (fst a = fst b /\ (snd a < snd b)%Q).
Proof.
  unfold key_lt.
  rewrite orb_true_iff, andb_true_iff, Z.ltb_lt, Z.eqb_eq, negb_true_iff.
  split; (intros [H|[H1 H2]]; [now left | right; split; [exact H1|]]).
  - apply Qnot_le_lt. intros Hle. apply Qle_bool_iff in Hle. congruence.
  - destruct (Qle_bool (snd b) (snd a)) eqn:Hle; [|reflexivity].
    apply Qle_bool_iff in Hle. exfalso. exact (Qlt_not_le _ _ H2 Hle).
Qed.

Lemma key_lt_false a b :
  key_lt a b = false <->
  (fst b < fst a)%Z \/ (fst b = fst a /\ (snd b <= snd a)%Q).
Proof.
  split.
  - intros H.
    destruct (Z.lt_trichotomy (fst a) (fst b)) as [Hlt|[Heq|Hgt]].
    + assert (key_lt a b = true) by (apply key_lt_spec; now left). congruence.
    + right. split; [now symmetry|].
      destruct (Qlt_le_dec (snd a) (snd b)) as [Hq|Hq]; [|exact Hq].
      assert (key_lt a b = true) by (apply key_lt_spec; now right). congruence.
    + now left.
  - intros H. destruct (key_lt a b) eqn:Hab; [|reflexivity].
    apply key_lt_spec in Hab. exfalso.
    destruct H as [H|[H1 H2]], Hab as [H'|[H1' H2']]; try lia.
    exact (Qlt_not_le _ _ H2' H2).
Qed.

Lemma rec_lt_asym a b : rec_lt a b = true -> rec_lt b a = false.
Proof.
  unfold rec_lt. intros H. apply key_lt_spec in H. apply key_lt_false.
  destruct H as [H|[H1 H2]]; [now left | right].
  split; [exact H1 | now apply Qlt_le_weak].
Qed.

Lemma rec_lt_cotrans a b c :
  rec_lt a c = true -> rec_lt a b = true \/ rec_lt b c = true.
Proof.
  unfold rec_lt. intros H. apply key_lt_spec in H.
  destruct (key_lt (sort_key a) (sort_key b)) eqn:Hab; [now left | right].
  apply key_lt_false in Hab. apply key_lt_spec.
  destruct H as [H|[H1 H2]], Hab as [H'|[H1' H2']]; try (left; lia).
  right. split; [lia|]. eapply Qle_lt_trans; eassumption.
Qed.

Lemma rec_lt_false a b : rec_lt a b = false <-> key_ge a b.
Proof. unfold rec_lt, key_ge. now rewrite key_lt_false. Qed.

Lemma tied_same_key a b : tied rec_lt a b = true <-> same_key a b.
Proof.
  unfold tied, same_key.
  rewrite andb_true_iff, !negb_true_iff, !rec_lt_false. unfold key_ge.
  split.
  - intros [[H|[H1 H2]] [H'|[H1' H2']]]; try lia.
    split; [exact H1' | now apply Qle_antisym].
  - intros [H1 H2]. split; right; (split; [congruence|]); rewrite H2; apply Qle_refl.
Qed.

End EngineFacts.

Section EngineClaims.
Import PyStr Engine.

(** C5.  [analyze_project_and_recommend] returns the recommendations of the
    security, performance, best-practice and technology analyzers, taken in
    this order and sorted: the result is a rearrangement of that list; of
    two entries the earlier one has the greater priority score, or the same
    score and a confidence that is not smaller; entries of equal score and
    confidence stand in the order they had before the sort; and an entry of
    priority [medium] never stands before one of priority [critical].  The
    scores are 1 for [low], 2 for [medium], 3 for [high], 4 for
    [critical]. *)
Theorem analyze_sorts_by_priority_then_confidence p technologies existing :
  let recs :=
    _generate_security_recommendations p
    ++ _generate_performance_recommendations p
    ++ _generate_best_practice_recommendations p
    ++ _generate_technology_recommendations technologies existing in
  let out := analyze_project_and_recommend p technologies existing in
  Permutation recs out /\
  StronglySorted key_ge out /\
  (forall r, List.filter (tied rec_lt r) out = List.filter (tied rec_lt r) recs) /\
  (forall a b, tied rec_lt a b = true <-> same_key a b) /\
  (forall l1 a l2 b l3,
      out = l1 ++ a :: l2 ++ b :: l3 ->
      ~ (priority a = "medium" /\ priority b = "critical")) /\
  (_priority_score "low" = 1 /\ _priority_score "medium" = 2
   /\ _priority_score "high" = 3 /\ _priority_score "critical" = 4)%Z.
Proof.
  intros recs out.
  assert (Hsorted : StronglySorted (fun a b => rec_lt a b = false) out).
  { apply sort_desc_sorted; [apply rec_lt_asym | apply rec_lt_cotrans]. }
  split; [apply sort_desc_perm|].
  split.
  { eapply StronglySorted_weaken; [|exact Hsorted].
    intros a b H. now apply rec_lt_false. }
  split; [intros r; apply sort_desc_stable; apply rec_lt_cotrans|].
  split; [apply tied_same_key|].
  split; [|repeat split].
  intros l1 a l2 b l3 Hout [Ha Hb].
  pose proof (sorted_no_inversion rec_lt out l1 a l2 b l3 Hsorted Hout) as H.
  apply rec_lt_false in H. unfold key_ge in H. rewrite Ha, Hb in H.
  destruct H as [H|[H _]]; vm_compute in H; discriminate H.
Qed.

(** Signals that name [.env] as a sensitive file, with one log file and the
    directories [src] and [build]. *)
Definition scenario_project : Project :=
  {| file_types := {[ ".py" := 3 ]};
     sensitive_files := [".env"];
     large_files := [];
     cache_dirs := [];
     log_files := ["app.log"];
     root_dirs := ["src"; "build"] |}.

End EngineClaims.

(* ===================================================================== *)
(** * Further properties of the template store *)
(* ===================================================================== *)




Section StoreMoreFacts.
Import PyStr Datetime Store.

Lemma template_file_not_metadata n : template_file n <> metadata_file.
Proof. unfold template_file, metadata_file, custom_dir, templates_dir. simpl. discriminate. Qed.

Lemma load_after_file_write (files : gmap string file) path f :
  path <> metadata_file ->
  _load_templates_database (<[path := f]> files) = _load_templates_database files.
Proof.
  intros Hne. unfold _load_templates_database.
  now rewrite lookup_insert_ne by exact Hne.
Qed.




End StoreMoreFacts.

Section StoreMore.
Import PyStr Datetime Store.



(** X2.  [create_template] succeeds exactly when the name passes its check,
    is not in the store, and gives a file name of at most 255 bytes; it
    raises [OSError] exactly when the name passes the check, is not in the
    store, and gives a longer file name.  When it does not succeed it
    changes nothing.  When it succeeds it returns the template it stores
    under that name, writes the content to the template file, and leaves
    every other template as it was. *)
Theorem create_succeeds_iff s n descr c auth tgs techs official now :
  let r := create_template s n descr c auth tgs techs official now in
  ((exists t, fst r = Ok t) <->
     is_empty n = false /\ Validator.name_is_alnum n = true
     /\ templates_db s !! n = None
     /\ length (encode (n +:+ ".gitignore")) <= name_max) /\
  (fst r = Raise OSError <->
     is_empty n = false /\ Validator.name_is_alnum n = true
     /\ templates_db s !! n = None
     /\ name_max < length (encode (n +:+ ".gitignore"))) /\
  ((forall t, fst r <> Ok t) -> snd r = s) /\
  (forall t, fst r = Ok t ->
     get_template (snd r) n = Some t
     /\ content t = c /\ name t = n /\ is_custom t = true
     /\ fs (snd r) !! template_file n = Some (TextFile c)
     /\ forall k, k <> n -> get_template (snd r) k = get_template s k).
Proof.
  cbv zeta. unfold create_template, get_template.
  destruct (is_empty n) eqn:He; cbn [orb].
  { split; [|split; [|split; [reflexivity | intros t H; discriminate H]]].
    - split; [intros [t H]; discriminate H | intros [H _]; discriminate H].
    - split; [intros H; discriminate H | intros [H _]; discriminate H]. }
  destruct (Validator.name_is_alnum n) eqn:Ha; cbn [negb].
  2:{ split; [|split; [|split; [reflexivity | intros t H; discriminate H]]].
      - split; [intros [t H]; discriminate H | intros (_ & H & _); discriminate H].
      - split; [intros H; discriminate H | intros (_ & H & _); discriminate H]. }
  destruct (decide _) as [[t0 Ht0]|Hfree].
  { split; [|split; [|split; [reflexivity | intros t H; discriminate H]]].
    - split; [intros [t H]; discriminate H | intros (_ & _ & H & _); congruence].
    - split; [intros H; discriminate H | intros (_ & _ & H & _); congruence]. }
  assert (Hnone : templates_db s !! n = None).
  { destruct (templates_db s !! n) eqn:Hl; [|reflexivity].
    exfalso. apply Hfree. eauto. }
  rewrite (can_create_template_file (fs s) n (name_is_alnum_chars n Ha)).
  destruct (Nat.leb_spec (length (encode (n +:+ ".gitignore"))) name_max) as [Hle|Hgt];
    cbn [negb fst snd templates_db fs].
  - split; [|split; [|split]].
    + split; [intros _; repeat split; assumption | eauto].
    + split; [intros H; discriminate H | intros (_ & _ & _ & H); lia].
    + intros H. exfalso. eapply H. reflexivity.
    + intros t H. injection H as <-. cbn [content name is_custom].
      rewrite lookup_insert_eq. repeat split.
      * unfold _save_templates_database.
        rewrite lookup_insert_ne
          by (intros E; symmetry in E; revert E; apply template_file_not_metadata).
        apply lookup_insert_eq.
      * intros k Hk. now rewrite lookup_insert_ne by congruence.
  - split; [|split; [|split; [reflexivity | intros t H; discriminate H]]].
    + split; [intros [t H]; discriminate H | intros (_ & _ & _ & H); lia].
    + split; [intros _; repeat split; assumption | reflexivity].
Qed.

(** X3.  A name that [validate_template_name] accepts passes the check of
    [create_template]: on a store that does not hold it the creation
    succeeds. *)
Theorem validated_name_is_created s n descr c auth tgs techs official now :
  fst (Validator.validate_template_name n) = true ->
  templates_db s !! n = None ->
  exists t, fst (create_template s n descr c auth tgs techs official now) = Ok t
            /\ templates_db (snd (create_template s n descr c auth tgs techs official now)) !! n
               = Some t.
Proof.
  intros Hv Hfree. unfold Validator.validate_template_name in Hv. cbn [fst] in Hv.
  destruct (is_empty n) eqn:He; [discriminate Hv|].
  destruct (Nat.ltb_spec 50 (len n)) as [|Hlen]; [discriminate Hv|].
  destruct (Validator.name_is_alnum n) eqn:Ha; [|discriminate Hv].
  rewrite (create_template_ok s n descr c auth tgs techs official now He Ha Hfree
             (short_name_can_create (fs s) n Ha Hlen)).
  eexists. split; [reflexivity|]. apply lookup_insert_eq.
Qed.

(** X3, the theorem at the name [ab-cd_12]. *)
Lemma validated_name_is_created_witness :
  fst (Validator.validate_template_name "ab-cd_12") = true /\
  templates_db empty_store !! "ab-cd_12" = None /\
  exists t, fst (create_template empty_store "ab-cd_12" "d" "*.log" "me" [] [] false noon)
            = Ok t.
Proof.
  assert (H1 : fst (Validator.validate_template_name "ab-cd_12") = true) by reflexivity.
  assert (H2 : templates_db empty_store !! "ab-cd_12" = None) by apply lookup_empty.
  split; [exact H1|]. split; [exact H2|].
  destruct (validated_name_is_created empty_store "ab-cd_12" "d" "*.log" "me" [] []
              false noon H1 H2) as (t & Ht & _).
  exists t. exact Ht.
Defined.



(** X5.  For a name the store does not hold, [get_template] returns
    nothing, [update_template] and [delete_template] raise the not-found
    error whatever their other arguments, [export_template] returns
    [False], and none of them changes the store or the file system. *)
Theorem unknown_name_changes_nothing s n :
  templates_db s !! n = None ->
  get_template s n = None /\
  (forall descr c tgs techs ver now,
      update_template s n descr c tgs techs ver now = (Raise (NotFound n), s)) /\
  (forall force confirm,
      delete_template s n force confirm = (Raise (NotFound n), s)) /\
  (forall out now, export_template s n out now = (false, s)).
Proof.
  intros Hn. unfold get_template, update_template, delete_template,
    export_template, get_template. rewrite Hn. repeat split.
Qed.

(** X5, the theorem at the empty store. *)
Lemma unknown_name_changes_nothing_witness :
  templates_db empty_store !! "missing-tpl" = None /\
  delete_template empty_store "missing-tpl" true false
  = (Raise (NotFound "missing-tpl"), empty_store).
Proof.
  assert (H : templates_db empty_store !! "missing-tpl" = None) by apply lookup_empty.
  split; [exact H|].
  destruct (unknown_name_changes_nothing empty_store "missing-tpl" H) as (_ & _ & Hd & _).
  apply Hd.
Defined.

(** X6.  For a name the store holds, [delete_template] without [force]
    asks, and on a refusal returns [False] with the store and the file
    system as they were; with [force], or on an agreement, it returns
    [True], the name is gone from the store, its template file is gone from
    the file system, and every other template is as it was. *)
Theorem delete_removes_or_keeps s n t force confirm :
  templates_db s !! n = Some t ->
  let r := delete_template s n force confirm in
  (force = false /\ confirm = false -> r = (Ok false, s)) /\
  (force = true \/ confirm = true ->
     fst r = Ok true
     /\ get_template (snd r) n = None
     /\ fs (snd r) !! template_file n = None
     /\ forall k, k <> n -> get_template (snd r) k = get_template s k).
Proof.
  intros Ht. cbv zeta. unfold delete_template, get_template. rewrite Ht. split.
  - intros [-> ->]. reflexivity.
  - intros H.
    assert (Hb : negb force && negb confirm = false)
      by (destruct H as [-> | ->]; [reflexivity | apply andb_false_r]).
    rewrite Hb. cbn [fst snd templates_db fs].
    split; [reflexivity|]. split; [apply lookup_delete_eq|].
    split; [apply lookup_delete_eq|].
    intros k Hk. now rewrite lookup_delete_ne by congruence.
Qed.

(** X6, the theorem at a template created in the empty store. *)
Lemma delete_removes_or_keeps_witness :
  let s := snd (create_template empty_store "my-tpl" "d" "*.log" "me" [] [] false noon) in
  exists t,
    templates_db s !! "my-tpl" = Some t /\
    delete_template s "my-tpl" false false = (Ok false, s) /\
    get_template (snd (delete_template s "my-tpl" true false)) "my-tpl" = None.
Proof.
  cbv zeta. rewrite my_tpl_created. cbn [snd].
  exists my_tpl. split; [exact my_tpl_held|]. split.
  - exact (proj1 (delete_removes_or_keeps my_tpl_store "my-tpl" my_tpl false false
                    my_tpl_held)
             (conj eq_refl eq_refl)).
  - exact (proj1 (proj2 (proj2 (delete_removes_or_keeps my_tpl_store "my-tpl" my_tpl
                                  true false my_tpl_held)
                           (or_introl eq_refl)))).
Defined.

(** X7.  Creating a template under a fresh name and deleting it with
    [force] gives back the database the store had, and leaves no template
    file for that name. *)
Theorem create_then_delete_restores s n descr c auth tgs techs official now confirm t s1 :
  create_template s n descr c auth tgs techs official now = (Ok t, s1) ->
  let r := delete_template s1 n true confirm in
  fst r = Ok true
  /\ templates_db (snd r) = templates_db s
  /\ fs (snd r) !! template_file n = None.
Proof.
  intros Hc. cbv zeta.
  apply create_template_result in Hc as (_ & Hfree & _ & Hdb).
  unfold delete_template. rewrite Hdb, lookup_insert_eq.
  cbn [negb andb fst snd templates_db fs].
  split; [reflexivity|]. split; [|apply lookup_delete_eq].
  rewrite delete_insert_eq. now apply delete_id.
Qed.

(** X7, the theorem at the empty store. *)
Lemma create_then_delete_restores_witness :
  let first := create_template empty_store "my-tpl" "d" "*.log" "me" [] [] false noon in
  exists t, first = (Ok t, snd first) /\
            templates_db (snd (delete_template (snd first) "my-tpl" true false)) = ∅.
Proof.
  cbv zeta. rewrite my_tpl_created. cbn [snd].
  exists my_tpl. split; [reflexivity|].
  exact (proj1 (proj2 (create_then_delete_restores _ _ _ _ _ _ _ _ _ false
                         my_tpl my_tpl_store my_tpl_created))).
Defined.







End StoreMore.

(* ===================================================================== *)
(** * Further properties of the validator *)
(* ===================================================================== *)

(** The numbers [run_validate_template] prints after the verdict: the lines
    of the text, those that are not blank, the comments, the patterns, and
    the size in bytes. *)
Record statistics := {
  total_lines : nat;
  non_empty_lines : nat;
  comment_lines : nat;
  pattern_lines : nat;
  size_in_bytes : nat
}.

Definition template_statistics (content : string) : statistics :=
  let lines := PyStr.split LF content in
  let stripped_nonempty line := negb (PyStr.is_empty (PyStr.strip line)) in
  let is_comment line := PyStr.startswith "#" (PyStr.strip line) in
  {| total_lines := length lines;
     non_empty_lines := length (List.filter stripped_nonempty lines);
     comment_lines := length (List.filter is_comment lines);
     pattern_lines :=
       length (List.filter (fun line => stripped_nonempty line && negb (is_comment line))
                           lines);
     size_in_bytes := length (PyStr.encode content) |}.

(** The verdict and the numbers of [run_validate_template]. *)
Definition run_validate_template (content : string) : (bool * list string) * statistics :=
  (Validator.validate_template_content content, template_statistics content).

Section ValidatorMore.
Import PyStr Validator.

Lemma split_not_nil sep s : split sep s <> [].
Proof.
  destruct s as [|c s]; simpl; [discriminate|].
  destruct (Ascii.eqb c sep); [discriminate|].
  destruct (split sep s); discriminate.
Qed.

Lemma split_joined a b :
  split LF (a +:+ nl +:+ b) = split LF a ++ split LF b.
Proof.
  induction a as [|c a IH]; [reflexivity|].
  change (String c a +:+ nl +:+ b) with (String c (a +:+ nl +:+ b)).
  cbn [split]. rewrite IH.
  destruct (Ascii.eqb c LF); [reflexivity|].
  pose proof (split_not_nil LF a) as Hne.
  destruct (split LF a) as [|h t]; [contradiction | reflexivity].
Qed.

Lemma all_chars_joined p a b :
  all_chars p (a +:+ b) = all_chars p a && all_chars p b.
Proof.
  induction a as [|c a IH]; [reflexivity|].
  change (String c a +:+ b) with (String c (a +:+ b)).
  cbn [all_chars]. now rewrite IH, andb_assoc.
Qed.

Lemma blank_lines_have_no_errors lines : forall k,
  Forall (fun l => all_chars isspace_char l = true) lines ->
  check_lines k lines = [].
Proof.
  induction lines as [|raw rest IH]; intros k H; [reflexivity|].
  inversion H as [|? ? Hraw Hrest]; subst. cbn [check_lines].
  rewrite (IH _ Hrest), app_nil_r.
  unfold check_line. cbv zeta. now rewrite strip_empty, Hraw.
Qed.

Lemma check_line_length i raw : length (check_line i raw) <= 2.
Proof.
  unfold check_line; cbv zeta.
  repeat match goal with |- context [if ?b then _ else _] => destruct b end;
    simpl; lia.
Qed.

Lemma check_lines_length lines : forall k,
  length (check_lines k lines) <= 2 * length lines.
Proof.
  induction lines as [|raw rest IH]; intros k; cbn [check_lines length]; [lia|].
  rewrite length_app. pose proof (check_line_length k raw). specialize (IH (S k)). lia.
Qed.

(** X11.  Two accepted texts joined by a line feed make an accepted text;
    and when a joined text is accepted, each part that is not made of white
    space only is accepted on its own.  The joined text has the lines of the
    first part followed by those of the second. *)
Theorem joined_texts_validate a b :
  split LF (a +:+ nl +:+ b) = split LF a ++ split LF b /\
  (fst (validate_template_content a) = true ->
   fst (validate_template_content b) = true ->
   fst (validate_template_content (a +:+ nl +:+ b)) = true) /\
  (fst (validate_template_content (a +:+ nl +:+ b)) = true ->
   (all_chars isspace_char a = false -> fst (validate_template_content a) = true)
   /\ (all_chars isspace_char b = false -> fst (validate_template_content b) = true)).
Proof.
  split; [apply split_joined|].
  rewrite !content_valid_iff. unfold content_errors.
  rewrite !strip_empty, split_joined, check_lines_app, !all_chars_joined.
  change (all_chars isspace_char nl) with true. cbn [andb].
  split.
  - intros Ha Hb.
    destruct (all_chars isspace_char a); [discriminate Ha|].
    destruct (all_chars isspace_char b); [discriminate Hb|].
    cbn [andb app] in *.
    rewrite check_lines_nil in Ha, Hb.
    rewrite (proj2 (check_lines_nil (split LF a) 1) Ha).
    now rewrite (proj2 (check_lines_nil (split LF b) _) Hb).
  - intros H.
    destruct (all_chars isspace_char a && all_chars isspace_char b);
      [discriminate H|].
    cbn [app] in H. apply app_eq_nil in H as [Ha Hb].
    split; intros ->; cbn [app]; [exact Ha|].
    rewrite check_lines_nil in Hb. now apply check_lines_nil.
Qed.

(** X12.  A text made of white space only, the empty text included, gets
    exactly one error, the one for empty content; and no text gets more than
    two errors a line. *)
Theorem validate_content_error_count content :
  (all_chars isspace_char content = true ->
   validate_template_content content = (false, ["Template content cannot be empty"])) /\
  length (snd (validate_template_content content)) <= 2 * length (split LF content).
Proof.
  unfold validate_template_content, content_errors. cbn [snd].
  rewrite strip_empty, length_map. split.
  - intros H. rewrite H.
    rewrite (blank_lines_have_no_errors _ 1 (split_all_chars _ LF _ H)).
    reflexivity.
  - destruct (all_chars isspace_char content) eqn:H.
    + rewrite (blank_lines_have_no_errors _ 1 (split_all_chars _ LF _ H)).
      pose proof (split_not_nil LF content).
      destruct (split LF content); [contradiction | simpl; lia].
    + apply check_lines_length.
Qed.

Lemma filter_partition_length {A} (p q : A -> bool) (l : list A) :
  (forall x, q x = true -> p x = true) ->
  length (List.filter p l) =
  length (List.filter q l) + length (List.filter (fun x => p x && negb (q x)) l).
Proof.
  intros Hq. induction l as [|x l IH]; [reflexivity|].
  cbn [List.filter]. specialize (Hq x).
  destruct (p x), (q x); cbn [andb negb length]; try lia.
Qed.

(** X13.  In the numbers [run_validate_template] prints, a text has at
    least one line, the lines that are not blank are the comments and the
    patterns, no count exceeds the number of lines, and the text is faulted
    for empty content exactly when it has no line that is not blank. *)
Theorem statistics_add_up content :
  let verdict := fst (run_validate_template content) in
  let stats := snd (run_validate_template content) in
  1 <= total_lines stats /\
  non_empty_lines stats = comment_lines stats + pattern_lines stats /\
  non_empty_lines stats <= total_lines stats /\
  (non_empty_lines stats = 0 <->
   In "Template content cannot be empty" (snd verdict)).
Proof.
  cbv zeta. unfold run_validate_template, template_statistics. cbn [fst snd].
  cbn [total_lines non_empty_lines comment_lines pattern_lines].
  split.
  { pose proof (split_not_nil LF content).
    destruct (split LF content); [contradiction | simpl; lia]. }
  split.
  { apply filter_partition_length. intros line H.
    destruct (strip line); [discriminate H | reflexivity]. }
  split; [apply List.filter_length_le|].
  unfold validate_template_content, content_errors. cbn [snd].
  rewrite strip_empty, map_app, in_app_iff.
  destruct (all_chars isspace_char content) eqn:Hall.
  - split; [intros _; left; now left|]. intros _.
    pose proof (split_all_chars _ LF _ Hall) as Hlines.
    induction Hlines as [|l ls Hl _ IH]; [reflexivity|].
    cbn [List.filter]. now rewrite strip_empty, Hl.
  - split.
    + intros H0. exfalso.
      assert (Hblank : forall ls, length (List.filter
                 (fun line => negb (is_empty (strip line))) ls) = 0 ->
               Forall (fun l => all_chars isspace_char l = true) ls).
      { induction ls as [|l ls IH]; [constructor|]. cbn [List.filter].
        rewrite strip_empty. destruct (all_chars isspace_char l) eqn:Hl; cbn [negb].
        - intros H. constructor; [exact Hl | now apply IH].
        - discriminate. }
      apply Hblank in H0.
      assert (Hback : forall s, Forall (fun l => all_chars isspace_char l = true)
                                  (split LF s) -> all_chars isspace_char s = true).
      { induction s as [|c s IH]; [reflexivity|]. cbn [split all_chars].
        destruct (Ascii.eqb_spec c LF) as [->|Hc].
        - intros H. inversion H; subst. now rewrite IH.
        - pose proof (split_not_nil LF s) as Hne.
          destruct (split LF s) as [|h t]; [contradiction|].
          intros H. inversion H as [|? ? Hh Ht]; subst.
          cbn [all_chars] in Hh. apply andb_prop in Hh as [-> Hh].
          apply IH. now constructor. }
      apply Hback in H0. congruence.
    + intros [[]|H]. exfalso.
      apply in_map_iff in H as (e & He & Hin).
      pose proof (check_lines_bounds (split LF content) 1) as Hb.
      rewrite Forall_forall in Hb. apply list_elem_of_In, Hb in Hin as (j & Hj & _).
      destruct e; [discriminate Hj| |]; simpl in He;
        apply (f_equal (fun s => String.get 0 s)) in He; discriminate He.
Qed.

End ValidatorMore.

(* ===================================================================== *)
(** * Further properties of the recommendation engine *)
(* ===================================================================== *)

Module PyText.
Import PyStr.

(** [c.lower()] below U+0100: the letters A-Z and the capital letters of
    U+00C0-U+00DE, the multiplication sign apart, move 32 up. *)
Definition lower_char (c : ascii) : ascii :=
  if in_ranges [(65, 90); (192, 214); (216, 222)]%N c
  then ascii_of_N (code c + 32) else c.

(** [s.lower()]. *)
Fixpoint lower (s : string) : string :=
  match s with
  | EmptyString => EmptyString
  | String c s' => String (lower_char c) (lower s')
  end.

End PyText.

Module Scan.
Import PyStr PyText.

(** The patterns of [_is_sensitive_file], as the raw strings of the source
    spell them: the backslash is part of the pattern. *)
Definition sensitive_patterns : list string :=
  ["\.env"; "\.key"; "\.pem"; "\.crt"; "\.p12"; "\.pfx";
   "config\.json"; "secrets\."; "password"; "credential"].

(** [_is_sensitive_file], on [file_path.name]. *)
Definition _is_sensitive_file (name : string) : bool :=
  let file_name := lower name in
  existsb (fun pattern => contains pattern file_name) sensitive_patterns.

Definition cache_patterns : list string :=
  ["cache"; "tmp"; "temp"; "node_modules"; "vendor"; "target";
   "__pycache__"; ".pytest_cache"; ".mypy_cache"; ".gradle"].

(** [_is_cache_directory], on [dir_path.name]. *)
Definition _is_cache_directory (name : string) : bool :=
  let dir_name := lower name in
  existsb (fun pattern => contains pattern dir_name) cache_patterns.

End Scan.

Example lower_ex : PyText.lower "Config.JSON" = "config.json".
Proof. reflexivity. Qed.

Example sensitive_ex :
  Scan._is_sensitive_file "My_Passwords.txt" = true /\
  Scan._is_sensitive_file ".env" = false /\
  Scan._is_sensitive_file "a\.env" = true.
Proof. repeat split. Qed.

Section EngineMoreFacts.
Import PyStr PyText Engine.

Definition backslash : ascii := "\"%char.

Lemma lower_char_backslash c :
  Ascii.eqb backslash (lower_char c) = Ascii.eqb backslash c.
Proof. destruct c as [[] [] [] [] [] [] [] []]; reflexivity. Qed.

Lemma lower_keeps_backslash_free s :
  any_char (Ascii.eqb backslash) (lower s) = any_char (Ascii.eqb backslash) s.
Proof.
  induction s as [|c s IH]; [reflexivity|].
  cbn [lower any_char]. now rewrite lower_char_backslash, IH.
Qed.

Lemma startswith_any_char p s c :
  startswith p s = true -> any_char (Ascii.eqb c) p = true ->
  any_char (Ascii.eqb c) s = true.
Proof.
  revert s. induction p as [|a p IH]; intros s Hs Hp; [discriminate Hp|].
  destruct s as [|b s]; [discriminate Hs|].
  cbn [startswith] in Hs. apply andb_prop in Hs as [Hab Hs].
  apply Ascii.eqb_eq in Hab as <-.
  cbn [any_char] in *. apply orb_prop in Hp as [-> | Hp]; [reflexivity|].
  rewrite (IH _ Hs Hp). apply orb_true_r.
Qed.

(** A text holds every character of the texts it contains. *)
Lemma contains_any_char p s c :
  contains p s = true -> any_char (Ascii.eqb c) p = true ->
  any_char (Ascii.eqb c) s = true.
Proof.
  induction s as [|b s IH]; cbn [contains]; intros Hc Hp.
  - rewrite orb_false_r in Hc. eapply startswith_any_char; eassumption.
  - apply orb_prop in Hc as [Hc|Hc]; [eapply startswith_any_char; eassumption|].
    cbn [any_char]. rewrite (IH Hc Hp). apply orb_true_r.
Qed.

Lemma sort_desc_nil {A} (lt : A -> A -> bool) l : sort_desc lt l = [] <-> l = [].
Proof.
  split; [|intros ->; reflexivity].
  intros H. pose proof (sort_desc_perm lt l) as Hp. rewrite H in Hp.
  now apply Permutation_nil_r in Hp.
Qed.

Lemma app_nil_iff {A} (l1 l2 : list A) : l1 ++ l2 = [] <-> l1 = [] /\ l2 = [].
Proof.
  split; [apply app_eq_nil | intros [-> ->]; reflexivity].
Qed.

Lemma is_nil_true {A} (l : list A) : is_nil l = true <-> l = [].
Proof. destruct l; simpl; split; congruence. Qed.

Lemma one_or_none_nil {A B} (l : list A) (x : B) :
  (if is_nil l then [] else [x]) = [] <-> l = [].
Proof. destruct l; simpl; split; congruence. Qed.

(** What the analyzers emit: a priority among [critical], [high] and
    [medium], a category among [security], [performance] and
    [best_practice], a confidence between 0.8 and 0.95. *)
Definition in_bounds (r : Recommendation) : bool :=
  (String.eqb (priority r) "critical" || String.eqb (priority r) "high"
   || String.eqb (priority r) "medium")
  && (String.eqb (category r) "security" || String.eqb (category r) "performance"
      || String.eqb (category r) "best_practice")
  && Qle_bool 0.8 (confidence r) && Qle_bool (confidence r) 0.95.

Lemma technology_in_bounds techs existing :
  Forall (fun r => in_bounds r = true /\ priority r = "high")
         (_generate_technology_recommendations techs existing).
Proof.
  induction techs as [|tech rest IH]; [constructor|].
  cbn [_generate_technology_recommendations].
  apply Forall_app; split; [|exact IH].
  destruct (patterns_of tech); [|constructor].
  destruct (is_nil _); [constructor|]. repeat constructor.
Qed.

Lemma collected_in_bounds p techs existing :
  Forall (fun r => in_bounds r = true) (collected p techs existing).
Proof.
  unfold collected, _generate_security_recommendations,
    _generate_performance_recommendations, _generate_best_practice_recommendations.
  assert (Hone : forall (b : bool) (r : Recommendation),
             in_bounds r = true ->
             Forall (fun r => in_bounds r = true) (if b then [] else [r])).
  { intros [] r Hr; repeat constructor. exact Hr. }
  cbv zeta.
  repeat (apply Forall_app; split); try (apply Hone; reflexivity).
  eapply Forall_impl; [apply technology_in_bounds|]. now intros r [H _].
Qed.

End EngineMoreFacts.

Section EngineMore.
Import PyStr PyText Engine Scan.

Lemma is_sensitive_spec name :
  any_char (Ascii.eqb backslash) name = false ->
  _is_sensitive_file name =
  contains "password" (lower name) || contains "credential" (lower name).
Proof.
  intros Hfree.
  assert (Hno : forall pattern,
             any_char (Ascii.eqb backslash) pattern = true ->
             contains pattern (lower name) = false).
  { intros pattern Hp. destruct (contains pattern (lower name)) eqn:Hc; [|reflexivity].
    pose proof (contains_any_char _ _ _ Hc Hp) as H.
    rewrite lower_keeps_backslash_free in H. congruence. }
  unfold _is_sensitive_file, sensitive_patterns. cbv zeta. cbn [existsb].
  rewrite !Hno by reflexivity. cbn [orb]. now rewrite orb_false_r.
Qed.

(** X14.  The first eight patterns of [_is_sensitive_file] are written with
    a backslash, and are looked for as they are written: a file whose name
    holds no backslash is reported as sensitive exactly when its name, in
    lower case, contains [password] or [credential]. *)
Theorem sensitive_file_without_backslash name :
  any_char (Ascii.eqb backslash) name = false ->
  _is_sensitive_file name =
  contains "password" (lower name) || contains "credential" (lower name).
Proof. exact (is_sensitive_spec name). Qed.

(** X14, the theorem at the names [.env] and [id_rsa.key]. *)
Lemma sensitive_file_without_backslash_witness :
  any_char (Ascii.eqb backslash) ".env" = false /\
  _is_sensitive_file ".env" = false /\
  _is_sensitive_file "id_rsa.key" = false.
Proof.
  assert (H : any_char (Ascii.eqb backslash) ".env" = false) by reflexivity.
  split; [exact H|]. split.
  - rewrite (sensitive_file_without_backslash ".env" H). reflexivity.
  - rewrite (sensitive_file_without_backslash "id_rsa.key" eq_refl). reflexivity.
Defined.

(** X15.  [analyze_project_and_recommend] returns the empty list exactly
    when the project has no sensitive file, no file type whose key contains
    [config], no large file, no cache directory, no log file, no directory
    named [build], [dist] or [out] at its root, and the technology analyzer
    has nothing to report. *)
Theorem analyze_empty_iff p technologies existing :
  analyze_project_and_recommend p technologies existing = [] <->
  sensitive_files p = []
  /\ List.filter (contains "config") (map fst (map_to_list (file_types p))) = []
  /\ large_files p = [] /\ cache_dirs p = []
  /\ log_files p = [] /\ build_dirs p = []
  /\ _generate_technology_recommendations technologies existing = [].
Proof.
  unfold analyze_project_and_recommend. rewrite sort_desc_nil.
  unfold collected, _generate_security_recommendations,
    _generate_performance_recommendations, _generate_best_practice_recommendations.
  cbv zeta.
  rewrite !app_nil_iff, !one_or_none_nil. tauto.
Qed.

(** X16.  Every recommendation [analyze_project_and_recommend] returns has
    the priority [critical], [high] or [medium], the category [security],
    [performance] or [best_practice], and a confidence between 0.8 and 0.95;
    and there are at most six of them besides one for each detected
    technology. *)
Theorem analyze_stays_in_bounds p technologies existing :
  let out := analyze_project_and_recommend p technologies existing in
  Forall (fun r =>
            (priority r = "critical" \/ priority r = "high" \/ priority r = "medium")
            /\ (category r = "security" \/ category r = "performance"
                \/ category r = "best_practice")
            /\ (0.8 <= confidence r)%Q /\ (confidence r <= 0.95)%Q) out /\
  length out <= 6 + length technologies.
Proof.
  cbv zeta. unfold analyze_project_and_recommend.
  pose proof (sort_desc_perm rec_lt (collected p technologies existing)) as Hp.
  split.
  - eapply Permutation_Forall; [exact Hp|].
    eapply Forall_impl; [apply collected_in_bounds|].
    intros r Hr. unfold in_bounds in Hr.
    apply andb_prop in Hr as [Hr Hhi]. apply andb_prop in Hr as [Hr Hlo].
    apply andb_prop in Hr as [Hpr Hcat].
    rewrite !orb_true_iff, !String.eqb_eq in Hpr, Hcat.
    apply Qle_bool_iff in Hhi, Hlo. tauto.
  - rewrite <- (Permutation_length Hp).
    unfold collected, _generate_security_recommendations,
      _generate_performance_recommendations, _generate_best_practice_recommendations.
    cbv zeta. rewrite !length_app.
    assert (Htech : forall techs,
               length (_generate_technology_recommendations techs existing)
               <= length techs).
    { induction techs as [|tech rest IH]; [reflexivity|].
      cbn [_generate_technology_recommendations]. rewrite length_app.
      destruct (patterns_of tech); [destruct (is_nil _)|]; simpl; lia. }
    specialize (Htech technologies).
    repeat match goal with |- context [if ?b then _ else _] => destruct b end;
      simpl; lia.
Qed.

Lemma sort_desc_head {A} (lt : A -> A -> bool) x l :
  Forall (fun y => lt x y = false) l ->
  sort_desc lt (x :: l) = x :: sort_desc lt l.
Proof.
  intros H. cbn [sort_desc].
  assert (Hs : Forall (fun y => lt x y = false) (sort_desc lt l))
    by (eapply Permutation_Forall; [apply sort_desc_perm | exact H]).
  destruct (sort_desc lt l) as [|y ys]; [reflexivity|].
  cbn [insert_desc]. inversion Hs as [|? ? Hy _]; subst. now rewrite Hy.
Qed.

(** X17.  Whenever the project has a sensitive file, the first
    recommendation of the result is the critical one on sensitive files,
    with their number in its description, whatever else is found and
    whatever the technologies and the existing ignore text are. *)
Theorem sensitive_files_rank_first p technologies existing :
  sensitive_files p <> [] ->
  exists rest,
    analyze_project_and_recommend p technologies existing =
      {| title := "Sensitive Files Detected";
         description := "Found " +:+ of_nat (length (sensitive_files p))
                        +:+ " potentially sensitive files";
         priority := "critical";
         category := "security";
         action := "Review and add appropriate patterns to .gitignore";
         confidence := 0.95;
         reasoning :=
           "Sensitive files like .env, .key, .pem files should never be committed" |}
      :: rest.
Proof.
  intros Hs.
  pose proof (collected_in_bounds p technologies existing) as Hb.
  unfold analyze_project_and_recommend.
  unfold collected, _generate_security_recommendations in Hb |- *.
  destruct (sensitive_files p) as [|f fs]; [contradiction|].
  cbn [is_nil app] in Hb |- *.
  inversion Hb as [|? ? _ Hrest]; subst.
  rewrite sort_desc_head; [eexists; reflexivity|].
  eapply Forall_impl; [exact Hrest|].
  intros r Hr. unfold in_bounds in Hr.
  apply andb_prop in Hr as [Hr Hhi]. apply andb_prop in Hr as [Hr _].
  apply andb_prop in Hr as [Hpr _]. apply Qle_bool_iff in Hhi.
  apply rec_lt_false. unfold key_ge. cbn [priority confidence].
  rewrite !orb_true_iff, !String.eqb_eq in Hpr.
  destruct Hpr as [[-> | ->] | ->]; [right; split; [reflexivity | exact Hhi] | | ];
    left; reflexivity.
Qed.

(** X17, the theorem at [scenario_project] with no technology. *)
Lemma sensitive_files_rank_first_witness :
  sensitive_files scenario_project <> [] /\
  map priority (analyze_project_and_recommend scenario_project [] (Some "*.log"))
  = ["critical"; "high"; "medium"] /\
  exists rest,
    analyze_project_and_recommend scenario_project [] (Some "*.log") =
      {| title := "Sensitive Files Detected";
         description := "Found " +:+ of_nat (length (sensitive_files scenario_project))
                        +:+ " potentially sensitive files";
         priority := "critical";
         category := "security";
         action := "Review and add appropriate patterns to .gitignore";
         confidence := 0.95;
         reasoning :=
           "Sensitive files like .env, .key, .pem files should never be committed" |}
      :: rest.
Proof.
  assert (H : sensitive_files scenario_project <> []) by discriminate.
  split; [exact H|]. split; [vm_compute; reflexivity|].
  exact (sensitive_files_rank_first scenario_project [] (Some "*.log") H).
Defined.

(** X18.  The technology analyzer reports every detected technology on its
    own: the list for two lists of technologies put end to end is the two
    lists of recommendations put end to end, so a technology detected twice
    is reported twice; a technology that is not in the table adds nothing;
    and every recommendation is titled after a detected technology of the
    table. *)
Theorem technology_recommendations_compose l1 l2 existing :
  _generate_technology_recommendations (l1 ++ l2) existing =
    _generate_technology_recommendations l1 existing
    ++ _generate_technology_recommendations l2 existing /\
  (forall tech, patterns_of tech = None ->
     _generate_technology_recommendations (tech :: l2) existing =
     _generate_technology_recommendations l2 existing) /\
  Forall (fun r => exists tech patterns,
            In tech l1 /\ patterns_of tech = Some patterns
            /\ r = technology_recommendation tech (missing_patterns patterns existing))
         (_generate_technology_recommendations l1 existing).
Proof.
  split; [|split].
  - induction l1 as [|tech rest IH]; [reflexivity|].
    cbn [app _generate_technology_recommendations]. now rewrite IH, app_assoc.
  - intros tech H. cbn [_generate_technology_recommendations]. now rewrite H.
  - induction l1 as [|tech rest IH]; [constructor|].
    cbn [_generate_technology_recommendations]. apply Forall_app; split.
    + destruct (patterns_of tech) as [patterns|] eqn:Hp; [|constructor].
      destruct (is_nil _); [constructor|]. constructor; [|constructor].
      exists tech, patterns. split; [now left | now split].
    + eapply Forall_impl; [exact IH|].
      intros r (t & ps & Hin & Hp & Hr). exists t, ps. split; [now right | now split].
Qed.

(** X19.  For a technology of the table, an existing ignore text that is
    not empty silences the recommendation exactly when it contains every
    pattern of the technology; otherwise the recommendation counts the
    patterns the text does not contain.  Without a text, or with the empty
    text, all the patterns count as missing. *)
Theorem technology_gap tech patterns :
  patterns_of tech = Some patterns ->
  (forall text, is_empty text = false ->
     let missing := List.filter (fun pattern => negb (contains pattern text)) patterns in
     (_generate_technology_recommendations [tech] (Some text) = [] <->
        forall pattern, In pattern patterns -> contains pattern text = true)
     /\ (missing <> [] ->
         _generate_technology_recommendations [tech] (Some text)
         = [technology_recommendation tech missing])) /\
  _generate_technology_recommendations [tech] (Some EmptyString)
  = _generate_technology_recommendations [tech] None /\
  (patterns <> [] ->
   _generate_technology_recommendations [tech] None
   = [technology_recommendation tech patterns]).
Proof.
  intros Hp. cbn [_generate_technology_recommendations]. rewrite Hp.
  split; [|split].
  - intros text Ht. cbv zeta. unfold missing_patterns. rewrite Ht.
    rewrite app_nil_r. split.
    + rewrite one_or_none_nil. split.
      * intros Hnil pattern Hin.
        destruct (contains pattern text) eqn:Hc; [reflexivity|].
        assert (Hm : In pattern
                  (List.filter (fun pattern => negb (contains pattern text)) patterns))
          by (apply filter_In; split; [exact Hin | now rewrite Hc]).
        rewrite Hnil in Hm. destruct Hm.
      * intros Hall. clear Hp.
        induction patterns as [|x xs IH]; [reflexivity|].
        cbn [List.filter]. rewrite (Hall x) by now left. cbn [negb].
        apply IH. intros q Hq. apply Hall. now right.
    + intros Hne.
      destruct (List.filter _ patterns); [contradiction | reflexivity].
  - reflexivity.
  - intros Hne. unfold missing_patterns.
    destruct patterns; [contradiction | reflexivity].
Qed.

(** X19, the theorem at [python], against a text that lists nothing and a
    text that lists every pattern. *)
Lemma technology_gap_witness :
  let covering :=
    "*.pyc __pycache__/ .pytest_cache/ .coverage htmlcov/ .tox/ .venv/ .mypy_cache/" in
  let patterns :=
    ["*.pyc"; "__pycache__/"; ".pytest_cache/"; ".coverage";
     "htmlcov/"; ".tox/"; ".venv/"; "venv/"; ".mypy_cache/"] in
  patterns_of "python" = Some patterns /\
  is_empty covering = false /\
  map description (_generate_technology_recommendations ["python"] (Some "*.log"))
  = ["Missing 9 recommended patterns for python"] /\
  _generate_technology_recommendations ["python"] (Some covering) = [].
Proof.
  intros covering patterns.
  assert (Hp : patterns_of "python" = Some patterns) by reflexivity.
  split; [exact Hp|]. split; [reflexivity|].
  destruct (technology_gap "python" patterns Hp) as (Htext & _ & _).
  split.
  - destruct (Htext "*.log" eq_refl) as [_ H]. rewrite H by discriminate. reflexivity.
  - apply (Htext covering eq_refl). intros pattern Hin.
    repeat (destruct Hin as [<-|Hin]; [reflexivity|]). destruct Hin.
Defined.

End EngineMore.

(* ===================================================================== *)
(** * The commands of [cli.py] that drive the store *)
(* ===================================================================== *)

Module Cli.
Import PyStr Datetime Store.

(** What [run_create_advanced_template] reports. *)
Inductive outcome :=
| ContentRejected (errors : list string)
| NameRejected (errors : list string)
| Created (template : Template)
| Failed (e : exn).

(** [run_create_advanced_template]: the content is validated, then the
    name, then the template is created; an exception of the creation is
    caught and reported. *)
Definition run_create_advanced_template (s : state)
    (n descr c auth : string) (tgs techs : list string) (now : datetime)
    : outcome * state :=
  let '(is_valid, errors) := Validator.validate_template_content c in
  if negb is_valid then (ContentRejected errors, s)
  else
    let '(is_valid, errors) := Validator.validate_template_name n in
    if negb is_valid then (NameRejected errors, s)
    else
      match create_template s n descr c auth tgs techs false now with
      | (Ok template, s') => (Created template, s')
      | (Raise e, s') => (Failed e, s')
      end.

(** [TemplateMarketplace.download_template]; the clock is read twice. *)
Definition download_template (template_name : string) (now1 now2 : datetime)
    : Template :=
  {| name := template_name;
     description := "Downloaded template: " +:+ template_name;
     content :=
       "# Downloaded template" +:+ nl +:+ "*.log" +:+ nl +:+ "*.tmp" +:+ nl +:+ ".env";
     author := "marketplace";
     version := "1.0.0";
     tags := ["downloaded"];
     technologies := [];
     created_at := now1;
     updated_at := now2;
     downloads := 1;
     rating := 0;
     is_official := false;
     is_custom := false;
     file_size := 50;
     checksum := EmptyString |}.

(** [run_download_template]: the downloaded record is handed to
    [create_template] field by field; an exception is caught and
    reported. *)
Definition run_download_template (s : state) (n : string)
    (now1 now2 now : datetime) : result Template * state :=
  let template := download_template n now1 now2 in
  create_template s (name template) (description template) (content template)
    (author template) (tags template) (technologies template) false now.

End Cli.

Section CliFacts.
Import PyStr Datetime Store Cli.

(** X20.  [run_create_advanced_template] changes the store only when it
    reports a creation, and then the content and the name have both passed
    the validator, so the name has at most 50 characters, and the template
    is stored under a name that was free, with the size and the digest of
    its content.  A failure it reports from [create_template] is the
    duplicate-name error: the name check of [create_template] never fires
    behind the validator. *)
Theorem cli_create_is_gated s n descr c auth tgs techs now :
  let r := run_create_advanced_template s n descr c auth tgs techs now in
  (forall t, fst r = Created t ->
     fst (Validator.validate_template_content c) = true
     /\ fst (Validator.validate_template_name n) = true
     /\ len n <= 50
     /\ templates_db s !! n = None
     /\ templates_db (snd r) !! n = Some t
     /\ consistent t /\ content t = c) /\
  ((forall t, fst r <> Created t) -> snd r = s) /\
  (forall e, fst r = Failed e ->
     e = DuplicateName n /\ is_Some (templates_db s !! n)).
Proof.
  cbv zeta. unfold run_create_advanced_template.
  destruct (Validator.validate_template_content c) as [vc ec] eqn:Hvc.
  destruct vc; cbn [negb].
  2:{ split; [intros t H; discriminate H|]. split; [reflexivity|].
      intros e H; discriminate H. }
  destruct (Validator.validate_template_name n) as [vn en] eqn:Hvn.
  destruct vn; cbn [negb].
  2:{ split; [intros t H; discriminate H|]. split; [reflexivity|].
      intros e H; discriminate H. }
  assert (Hname : is_empty n = false /\ len n <= 50
                  /\ Validator.name_is_alnum n = true).
  { unfold Validator.validate_template_name in Hvn.
    destruct (is_empty n); [discriminate Hvn|].
    destruct (Nat.ltb_spec 50 (len n)); [discriminate Hvn|].
    destruct (Validator.name_is_alnum n); [|discriminate Hvn].
    repeat split. lia. }
  destruct Hname as (He & Hlen & Ha).
  destruct (create_template s n descr c auth tgs techs false now) as [[t|e] s'] eqn:Hc.
  - cbn [fst snd]. split; [|split].
    + intros t' H. injection H as <-.
      apply create_template_result in Hc as (_ & Hfree & Ht & Hdb).
      split; [reflexivity|]. split; [reflexivity|]. split; [exact Hlen|].
      split; [exact Hfree|]. split; [rewrite Hdb; apply lookup_insert_eq|].
      rewrite Ht. repeat split.
    + intros H. exfalso. exact (H t eq_refl).
    + intros e H. discriminate H.
  - cbn [fst snd]. unfold create_template in Hc. rewrite He, Ha in Hc.
    rewrite (short_name_can_create (fs s) n Ha Hlen) in Hc.
    cbn [orb negb] in Hc.
    destruct (decide _) as [Hin|Hout]; [|discriminate Hc].
    injection Hc as <- <-.
    split; [intros t H; discriminate H|]. split; [reflexivity|].
    intros e H. injection H as <-. now split.
Qed.

(** X21.  The record [download_template] builds carries a size of 50 and an
    empty checksum, which are not those of its content.  When its name
    passes the check of [create_template], is free and gives a file name
    of at most 255 bytes, [run_download_template] stores under that name a
    template with the downloaded content, description, author and tags,
    and with the size and the digest [create_template] computes from the
    content, marked custom and with no download counted. *)
Theorem cli_download_recomputes s n now1 now2 now :
  is_empty n = false -> Validator.name_is_alnum n = true ->
  templates_db s !! n = None ->
  length (encode (n +:+ ".gitignore")) <= name_max ->
  let downloaded := download_template n now1 now2 in
  let r := run_download_template s n now1 now2 now in
  ~ consistent downloaded /\
  exists t,
    fst r = Ok t /\ templates_db (snd r) !! n = Some t
    /\ consistent t
    /\ content t = content downloaded
    /\ description t = description downloaded
    /\ author t = author downloaded /\ tags t = tags downloaded
    /\ file_size t = 38%Z /\ file_size downloaded = 50%Z
    /\ is_custom t = true /\ is_custom downloaded = false
    /\ downloads t = 0%Z /\ downloads downloaded = 1%Z.
Proof.
  intros He Ha Hfree Hlen. cbv zeta. split.
  - intros [Hsize _]. vm_compute in Hsize. discriminate Hsize.
  - unfold run_download_template.
    cbn [name description content author tags technologies download_template].
    rewrite create_template_ok; [|exact He|exact Ha|exact Hfree|].
    2:{ rewrite can_create_template_file by now apply name_is_alnum_chars.
        now apply Nat.leb_le. }
    eexists. split; [reflexivity|]. cbn [snd templates_db].
    split; [apply lookup_insert_eq|].
    split; [split; reflexivity|]. repeat split.
Qed.

(** X21, the theorem at the name [fullstack-web] on the empty store. *)
Lemma cli_download_recomputes_witness :
  is_empty "fullstack-web" = false /\
  Validator.name_is_alnum "fullstack-web" = true /\
  templates_db empty_store !! "fullstack-web" = None /\
  length (encode ("fullstack-web" +:+ ".gitignore")) <= name_max /\
  exists t,
    fst (run_download_template empty_store "fullstack-web" noon noon noon) = Ok t
    /\ consistent t /\ file_size t = 38%Z.
Proof.
  assert (H3 : templates_db empty_store !! "fullstack-web" = None) by apply lookup_empty.
  assert (H4 : length (encode ("fullstack-web" +:+ ".gitignore")) <= name_max)
    by (vm_compute; lia).
  split; [reflexivity|]. split; [reflexivity|]. split; [exact H3|].
  split; [exact H4|].
  destruct (cli_download_recomputes empty_store "fullstack-web" noon noon noon
              eq_refl eq_refl H3 H4) as (_ & t & Hok & _ & Hcons & _ & _ & _ & _ & Hsize & _).
  exists t. split; [exact Hok|]. split; [exact Hcons | exact Hsize].
Defined.

End CliFacts.

(* ===================================================================== *)
(** * [TemplateManager.list_templates] *)
(* ===================================================================== *)

Module Listing.
Import PyStr PyText Store.

Definition is_nil_list (l : list string) : bool :=
  match l with [] => true | _ => false end.

(** [x in l] on a list of strings. *)
Definition mem (x : string) (l : list string) : bool := existsb (String.eqb x) l.

(** The test of the [search] filter, on the search text in lower case. *)
Definition matches_search (search_lower : string) (t : Template) : bool :=
  contains search_lower (lower (name t))
  || contains search_lower (lower (description t))
  || existsb (fun tag => contains search_lower (lower tag)) (tags t).

(** The five filters, each applied when its argument is supplied: a search
    text or a list that is [None] or empty is no filter. *)
Definition by_search (search : option string) (templates : list Template) :=
  match search with
  | Some q => if is_empty q then templates
              else List.filter (matches_search (lower q)) templates
  | None => templates
  end.

Definition by_tags (tgs : option (list string)) (templates : list Template) :=
  match tgs with
  | Some ((_ :: _) as wanted) =>
      List.filter (fun t => existsb (fun tag => mem tag (tags t)) wanted) templates
  | _ => templates
  end.

Definition by_technologies (techs : option (list string)) (templates : list Template) :=
  match techs with
  | Some ((_ :: _) as wanted) =>
      List.filter (fun t => existsb (fun tech => mem tech (technologies t)) wanted)
                  templates
  | _ => templates
  end.

Definition by_flag (flag : bool) (test : Template -> bool) (templates : list Template) :=
  if flag then List.filter test templates else templates.

Definition fewer_downloads (a b : Template) : bool := (downloads a <? downloads b)%Z.

(** [list_templates], on [list(self.templates_db.values())]: the templates
    of the database in the order of the dictionary. *)
Definition list_templates (values : list Template)
    (search : option string) (tgs techs : option (list string))
    (custom_only official_only : bool) : list Template :=
  let templates := values in
  let templates := by_search search templates in
  let templates := by_tags tgs templates in
  let templates := by_technologies techs templates in
  let templates := by_flag custom_only is_custom templates in
  let templates := by_flag official_only is_official templates in
  sort_desc fewer_downloads templates.

(** The templates that pass every supplied filter. *)
Definition passes (search : option string) (tgs techs : option (list string))
    (custom_only official_only : bool) (t : Template) : bool :=
  match search with
  | Some q => is_empty q || matches_search (lower q) t
  | None => true
  end
  && match tgs with
     | Some wanted => is_nil_list wanted || existsb (fun tag => mem tag (tags t)) wanted
     | None => true
     end
  && match techs with
     | Some wanted =>
         is_nil_list wanted || existsb (fun tech => mem tech (technologies t)) wanted
     | None => true
     end
  && implb custom_only (is_custom t)
  && implb official_only (is_official t).

End Listing.

Section ListingFacts.
Import PyStr PyText Store Listing.

Lemma filter_twice {A} (p q : A -> bool) (l : list A) :
  List.filter p (List.filter q l) = List.filter (fun x => q x && p x) l.
Proof.
  induction l as [|x l IH]; [reflexivity|].
  cbn [List.filter]. destruct (q x); cbn [andb List.filter]; [|exact IH].
  destruct (p x); now rewrite IH.
Qed.

Lemma filter_all {A} (l : list A) : List.filter (fun _ => true) l = l.
Proof. induction l as [|x l IH]; [reflexivity|]. cbn [List.filter]. now rewrite IH. Qed.

Lemma filter_same {A} (p q : A -> bool) (l : list A) :
  (forall x, p x = q x) -> List.filter p l = List.filter q l.
Proof.
  intros H. induction l as [|x l IH]; [reflexivity|].
  cbn [List.filter]. now rewrite H, IH.
Qed.

(** The filters, applied one after the other, keep the templates that pass
    all of them. *)
Lemma filters_are_conjunctive values search tgs techs custom_only official_only :
  by_flag official_only is_official
    (by_flag custom_only is_custom
       (by_technologies techs (by_tags tgs (by_search search values))))
  = List.filter (passes search tgs techs custom_only official_only) values.
Proof.
  assert (Hs : by_search search values =
               List.filter (fun t => match search with
                                     | Some q => is_empty q || matches_search (lower q) t
                                     | None => true
                                     end) values).
  { unfold by_search. destruct search as [q|]; [|now rewrite filter_all].
    destruct (is_empty q); cbn [orb]; [now rewrite filter_all | reflexivity]. }
  assert (Ht : forall l, by_tags tgs l =
               List.filter (fun t => match tgs with
                                     | Some wanted =>
                                         is_nil_list wanted
                                         || existsb (fun tag => mem tag (tags t)) wanted
                                     | None => true
                                     end) l).
  { intros l. unfold by_tags.
    destruct tgs as [[|x w]|]; cbn [is_nil_list orb]; now rewrite ?filter_all. }
  assert (He : forall l, by_technologies techs l =
               List.filter (fun t => match techs with
                                     | Some wanted =>
                                         is_nil_list wanted
                                         || existsb (fun tech => mem tech (technologies t))
                                                    wanted
                                     | None => true
                                     end) l).
  { intros l. unfold by_technologies.
    destruct techs as [[|x w]|]; cbn [is_nil_list orb]; now rewrite ?filter_all. }
  assert (Hf : forall flag test l,
               by_flag flag test l = List.filter (fun t => implb flag (test t)) l).
  { intros [] test l; unfold by_flag; cbn [implb]; [reflexivity | now rewrite filter_all]. }
  rewrite Hs, Ht, He, !Hf, !filter_twice.
  apply filter_same. intros t. unfold passes. now rewrite !andb_assoc.
Qed.

Lemma fewer_downloads_asym a b :
  fewer_downloads a b = true -> fewer_downloads b a = false.
Proof. unfold fewer_downloads. rewrite Z.ltb_lt, Z.ltb_ge. lia. Qed.

Lemma fewer_downloads_cotrans a b c :
  fewer_downloads a c = true ->
  fewer_downloads a b = true \/ fewer_downloads b c = true.
Proof. unfold fewer_downloads. rewrite !Z.ltb_lt. lia. Qed.

(** Elements of which none is below another keep their order in a sort. *)
Lemma sort_desc_keeps_order {A} (lt : A -> A -> bool) (q : A -> bool) l :
  (forall x y, q x = true -> q y = true -> lt x y = false) ->
  List.filter q (sort_desc lt l) = List.filter q l.
Proof.
  intros Hq.
  assert (Hins : forall x l', List.filter q (insert_desc lt x l')
                              = List.filter q (x :: l')).
  { intros x l'. induction l' as [|y ys IH]; [reflexivity|].
    cbn [insert_desc]. destruct (lt x y) eqn:Hxy; [|reflexivity].
    cbn [List.filter] in IH |- *. rewrite IH.
    destruct (q y) eqn:Hy, (q x) eqn:Hx; try reflexivity.
    rewrite (Hq x y Hx Hy) in Hxy. discriminate Hxy. }
  induction l as [|x xs IH]; [reflexivity|].
  cbn [sort_desc]. rewrite Hins. cbn [List.filter]. now rewrite IH.
Qed.

Lemma lower_char_idempotent c : lower_char (lower_char c) = lower_char c.
Proof. destruct c as [[] [] [] [] [] [] [] []]; reflexivity. Qed.

Lemma lower_idempotent s : lower (lower s) = lower s.
Proof.
  induction s as [|c s IH]; [reflexivity|].
  cbn [lower]. now rewrite lower_char_idempotent, IH.
Qed.

Lemma lower_is_empty s : is_empty (lower s) = is_empty s.
Proof. now destruct s. Qed.

End ListingFacts.

Section ListingClaims.
Import PyStr PyText Store Listing.

(** X22.  [list_templates] returns the templates that pass every filter
    supplied, each as often as the database holds it, the filters being
    taken together; of two templates of the result the earlier one has at
    least as many downloads, and templates with the same number of
    downloads stand in the order of the database. *)
Theorem list_templates_filters_and_sorts
    values search tgs techs custom_only official_only :
  let kept := List.filter (passes search tgs techs custom_only official_only) values in
  let out := list_templates values search tgs techs custom_only official_only in
  Permutation kept out /\
  StronglySorted (fun a b => (downloads b <= downloads a)%Z) out /\
  (forall d, List.filter (fun t => (downloads t =? d)%Z) out
             = List.filter (fun t => (downloads t =? d)%Z) kept) /\
  (forall t, In t out <->
             In t values /\ passes search tgs techs custom_only official_only t = true).
Proof.
  cbv zeta. unfold list_templates. cbv zeta. rewrite filters_are_conjunctive.
  set (kept := List.filter _ values).
  split; [apply sort_desc_perm|]. split; [|split].
  - eapply StronglySorted_weaken;
      [|apply sort_desc_sorted; [apply fewer_downloads_asym | apply fewer_downloads_cotrans]].
    intros a b H. unfold fewer_downloads in H. now apply Z.ltb_ge in H.
  - intros d. apply sort_desc_keeps_order.
    intros x y Hx Hy. apply Z.eqb_eq in Hx, Hy.
    unfold fewer_downloads. apply Z.ltb_ge. lia.
  - intros t. rewrite <- (filter_In (passes search tgs techs custom_only official_only)).
    fold kept. split; apply Permutation_in;
      [symmetry|]; apply sort_desc_perm.
Qed.

(** X23.  Without a filter [list_templates] returns all the templates of
    the database; an empty search text and empty lists of tags and of
    technologies are no filters. *)
Theorem list_templates_without_filter values :
  Permutation values (list_templates values None None None false false) /\
  length (list_templates values None None None false false) = length values /\
  list_templates values (Some EmptyString) (Some []) (Some []) false false
  = list_templates values None None None false false.
Proof.
  split; [apply sort_desc_perm|]. split; [|reflexivity].
  symmetry. apply Permutation_length. apply (sort_desc_perm fewer_downloads values).
Qed.

(** X24.  The search of [list_templates] does not depend on the case of the
    search text: a text and its lower-case form select the same
    templates. *)
Theorem list_templates_search_ignores_case
    values q tgs techs custom_only official_only :
  list_templates values (Some q) tgs techs custom_only official_only
  = list_templates values (Some (lower q)) tgs techs custom_only official_only.
Proof.
  unfold list_templates, by_search. cbv zeta.
  now rewrite lower_is_empty, lower_idempotent.
Qed.

End ListingClaims.

(* ===================================================================== *)
(** * [_analyze_project_structure] *)
(* ===================================================================== *)

Module Structure.
Import PyStr PyText Scan.

(** What [project_path.rglob("*")] yields: the path as [str] prints it,
    and whether it is a file, with its size in bytes, a directory, or
    neither. *)
Inductive kind := IsFile (st_size : N) | IsDir | IsOther.

Record entry := { e_path : string; e_kind : kind }.

(** [file_path.name]: what follows the last [/]. *)
Definition path_name (p : string) : string := List.last (split "/" p) EmptyString.

(** [name.rfind(c)]. *)
Fixpoint rfind (c : ascii) (s : string) : option nat :=
  match s with
  | EmptyString => None
  | String d s' =>
      match rfind c s' with
      | Some i => Some (S i)
      | None => if Ascii.eqb d c then Some 0 else None
      end
  end.

Fixpoint drop_chars (n : nat) (s : string) : string :=
  match n, s with
  | S n', String _ s' => drop_chars n' s'
  | _, _ => s
  end.

(** [file_path.suffix]: from the last dot on, unless the dot is the first
    or the last character of the name. *)
Definition suffix (name : string) : string :=
  match rfind "." name with
  | Some i => if (0 <? i) && (i <? len name - 1) then drop_chars i name else EmptyString
  | None => EmptyString
  end.

(** The dictionary [analysis]. *)
Record analysis := {
  a_file_types : gmap string nat;
  a_directories : list string;
  a_sensitive_files : list string;
  a_large_files : list string;
  a_cache_dirs : list string
}.

Definition large_limit : N := 10 * 1024 * 1024.

(** The body of the loop over the entries. *)
Definition visit (a : analysis) (e : entry) : analysis :=
  let name := path_name (e_path e) in
  match e_kind e with
  | IsFile st_size =>
      let ext := lower (suffix name) in
      {| a_file_types :=
           <[ext := default 0 (a_file_types a !! ext) + 1]> (a_file_types a);
         a_directories := a_directories a;
         a_sensitive_files :=
           if _is_sensitive_file name
           then a_sensitive_files a ++ [e_path e] else a_sensitive_files a;
         a_large_files :=
           if (large_limit <? st_size)%N
           then a_large_files a ++ [e_path e] else a_large_files a;
         a_cache_dirs := a_cache_dirs a |}
  | IsDir =>
      {| a_file_types := a_file_types a;
         a_directories := a_directories a ++ [e_path e];
         a_sensitive_files := a_sensitive_files a;
         a_large_files := a_large_files a;
         a_cache_dirs :=
           if _is_cache_directory name
           then a_cache_dirs a ++ [e_path e] else a_cache_dirs a |}
  | IsOther => a
  end.

Definition no_findings : analysis :=
  {| a_file_types := ∅; a_directories := []; a_sensitive_files := [];
     a_large_files := []; a_cache_dirs := [] |}.

Definition _analyze_project_structure (entries : list entry) : analysis :=
  fold_left visit entries no_findings.

(** The tests of the loop, on an entry. *)
Definition is_file (e : entry) : bool :=
  match e_kind e with IsFile _ => true | _ => false end.
Definition is_dir (e : entry) : bool :=
  match e_kind e with IsDir => true | _ => false end.
Definition is_large (e : entry) : bool :=
  match e_kind e with IsFile st_size => (large_limit <? st_size)%N | _ => false end.
Definition has_type (ext : string) (e : entry) : bool :=
  is_file e && String.eqb (lower (suffix (path_name (e_path e)))) ext.

(** The project an analysis run works on: the analysis of the entries, the
    log files and the directories of the root. *)
Definition project_of (entries : list entry) (logs roots : list string)
    : Engine.Project :=
  let a := _analyze_project_structure entries in
  {| Engine.file_types := a_file_types a;
     Engine.sensitive_files := a_sensitive_files a;
     Engine.large_files := a_large_files a;
     Engine.cache_dirs := a_cache_dirs a;
     Engine.log_files := logs;
     Engine.root_dirs := roots |}.

(** [analyze_project_and_recommend(project_path, detected_technologies,
    existing_gitignore)] as it runs on a directory: the analyzers work on
    the project that the readings of the directory give, [entries] for
    [rglob("*")], [logs] for [rglob("*.log")] and [roots] for the names of
    the directories of [iterdir()]. *)
Definition analyze_directory (entries : list entry) (logs roots : list string)
    (technologies : list string) (existing : option string)
    : list Engine.Recommendation :=
  Engine.analyze_project_and_recommend
    (project_of entries logs roots) technologies existing.

End Structure.

Example suffix_ex :
  map Structure.suffix [".env"; "a.tar.gz"; "a."; "a"; ".."; "a..b"; ".a.b"]
  = [""; ".gz"; ""; ""; ""; ".b"; ".b"].
Proof. reflexivity. Qed.

Example path_name_ex :
  Structure.path_name "proj/src/Main.PY" = "Main.PY" /\ Structure.path_name "x" = "x".
Proof. split; reflexivity. Qed.

Example analyze_structure_ex :
  let a := Structure._analyze_project_structure
             [ {| Structure.e_path := "p/src"; Structure.e_kind := Structure.IsDir |};
               {| Structure.e_path := "p/src/a.PY"; Structure.e_kind := Structure.IsFile 10 |};
               {| Structure.e_path := "p/src/b.py"; Structure.e_kind := Structure.IsFile 10485761 |};
               {| Structure.e_path := "p/.env"; Structure.e_kind := Structure.IsFile 10485760 |};
               {| Structure.e_path := "p/__pycache__"; Structure.e_kind := Structure.IsDir |} ] in
  Structure.a_file_types a !! ".py" = Some 2 /\
  Structure.a_file_types a !! "" = Some 1 /\
  Structure.a_sensitive_files a = [] /\
  Structure.a_large_files a = ["p/src/b.py"] /\
  Structure.a_cache_dirs a = ["p/__pycache__"] /\
  Structure.a_directories a = ["p/src"; "p/__pycache__"].
Proof. vm_compute. repeat split. Qed.

Section StructureFacts.
Import PyStr PyText Scan Structure.

(** The tests that send a path to the lists of the analysis. *)
Definition is_sensitive_entry (e : entry) : bool :=
  is_file e && _is_sensitive_file (path_name (e_path e)).
Definition is_cache_entry (e : entry) : bool :=
  is_dir e && _is_cache_directory (path_name (e_path e)).

Lemma fold_visit_lists es : forall a,
  let a' := fold_left visit es a in
  a_sensitive_files a' = a_sensitive_files a ++ map e_path (List.filter is_sensitive_entry es)
  /\ a_large_files a' = a_large_files a ++ map e_path (List.filter is_large es)
  /\ a_directories a' = a_directories a ++ map e_path (List.filter is_dir es)
  /\ a_cache_dirs a' = a_cache_dirs a ++ map e_path (List.filter is_cache_entry es).
Proof.
  induction es as [|e es IH]; intros a; cbv zeta.
  - cbn. now rewrite !app_nil_r.
  - cbn [fold_left]. destruct (IH (visit a e)) as (H1 & H2 & H3 & H4).
    rewrite H1, H2, H3, H4. clear IH H1 H2 H3 H4.
    unfold visit, is_sensitive_entry, is_cache_entry, is_large, is_dir, is_file.
    cbn [List.filter].
    destruct (e_kind e) as [size| |]; cbv zeta;
      cbn [a_sensitive_files a_large_files a_directories a_cache_dirs andb].
    + destruct (_is_sensitive_file _), (large_limit <? size)%N;
        cbn [map]; rewrite <- ?app_assoc; repeat split.
    + destruct (_is_cache_directory _); cbn [map]; rewrite <- ?app_assoc; repeat split.
    + repeat split.
Qed.

Lemma fold_visit_types ext es : forall a,
  a_file_types (fold_left visit es a) !! ext =
  match length (List.filter (has_type ext) es) with
  | O => a_file_types a !! ext
  | S n => Some (default 0 (a_file_types a !! ext) + S n)
  end.
Proof.
  induction es as [|e es IH]; intros a; [reflexivity|].
  cbn [fold_left List.filter]. rewrite IH. clear IH.
  unfold has_type at 2. unfold is_file, visit.
  destruct (e_kind e) as [size| |]; cbv zeta; cbn [andb a_file_types];
    try reflexivity.
  destruct (String.eqb_spec (lower (suffix (path_name (e_path e)))) ext) as [->|Hne].
  - rewrite lookup_insert_eq. cbn [length default].
    destruct (length (List.filter (has_type ext) es)); unfold id; f_equal; lia.
  - now rewrite lookup_insert_ne by exact Hne.
Qed.

End StructureFacts.

Section StructureClaims.
Import PyStr PyText Scan Structure.

(** X25.  [_analyze_project_structure] sorts the entries it is given, in
    their order: [sensitive_files] holds the paths of the files whose name
    is sensitive, [large_files] those of the files of more than 10485760
    bytes, [directories] those of the directories, [cache_dirs] those of the
    directories whose name is a cache name; and [file_types] maps every
    suffix, in lower case, to the number of files that have it, and holds no
    other key.  An entry that is neither a file nor a directory counts
    nowhere. *)
Theorem analysis_sorts_entries entries :
  let a := _analyze_project_structure entries in
  a_sensitive_files a = map e_path (List.filter is_sensitive_entry entries) /\
  a_large_files a = map e_path (List.filter is_large entries) /\
  a_directories a = map e_path (List.filter is_dir entries) /\
  a_cache_dirs a = map e_path (List.filter is_cache_entry entries) /\
  (forall ext,
      a_file_types a !! ext =
      match length (List.filter (has_type ext) entries) with
      | O => None
      | S n => Some (S n)
      end) /\
  (forall path, _analyze_project_structure (entries ++ [{| e_path := path; e_kind := IsOther |}])
                = a) /\
  (forall path, is_large {| e_path := path; e_kind := IsFile 10485760 |} = false
                /\ is_large {| e_path := path; e_kind := IsFile 10485761 |} = true).
Proof.
  cbv zeta. unfold _analyze_project_structure.
  destruct (fold_visit_lists entries no_findings) as (H1 & H2 & H3 & H4).
  split; [exact H1|]. split; [exact H2|]. split; [exact H3|]. split; [exact H4|].
  split; [|split].
  - intros ext. rewrite fold_visit_types. cbn [no_findings a_file_types].
    rewrite lookup_empty. reflexivity.
  - intros path. now rewrite fold_left_app.
  - intros path. split; reflexivity.
Qed.

(** The recommendations of a project without sensitive files are of high
    or medium priority. *)
Lemma collected_without_sensitive_files p techs existing :
  Engine.sensitive_files p = [] ->
  Forall (fun r => Engine.priority r = "high" \/ Engine.priority r = "medium")
         (Engine.collected p techs existing).
Proof.
  intros Hs.
  unfold Engine.collected, Engine._generate_security_recommendations,
    Engine._generate_performance_recommendations,
    Engine._generate_best_practice_recommendations.
  rewrite Hs. cbn [Engine.is_nil app]. cbv zeta.
  assert (Hone : forall (b : bool) (r : Engine.Recommendation),
             Engine.priority r = "high" \/ Engine.priority r = "medium" ->
             Forall (fun r => Engine.priority r = "high" \/ Engine.priority r = "medium")
                    (if b then [] else [r])).
  { intros [] r Hr; [constructor | constructor; [exact Hr | constructor]]. }
  repeat (apply Forall_app; split);
    try (apply Hone; first [left; reflexivity | right; reflexivity]).
  eapply Forall_impl; [apply technology_in_bounds|]. intros r [_ H]. now left.
Qed.

(** X26.  When no file of the project has a name that holds a backslash or
    contains, in lower case, [password] or [credential], the analysis finds
    no sensitive file and [analyze_project_and_recommend] returns no
    recommendation of critical priority, whatever the names of the files
    are otherwise: files named [.env], [server.key] or [secrets.yaml] raise
    no security recommendation. *)
Theorem plain_names_raise_no_alarm entries logs roots technologies existing :
  (forall e, In e entries -> is_file e = true ->
     let name := path_name (e_path e) in
     any_char (Ascii.eqb backslash) name = false
     /\ contains "password" (lower name) = false
     /\ contains "credential" (lower name) = false) ->
  a_sensitive_files (_analyze_project_structure entries) = [] /\
  Forall (fun r => Engine.priority r <> "critical"
                   /\ Engine.title r <> "Sensitive Files Detected")
         (Engine.analyze_project_and_recommend
            (project_of entries logs roots) technologies existing).
Proof.
  intros Hplain.
  assert (Hnone : a_sensitive_files (_analyze_project_structure entries) = []).
  { unfold _analyze_project_structure.
    destruct (fold_visit_lists entries no_findings) as (-> & _).
    cbn [no_findings a_sensitive_files app].
    replace (List.filter is_sensitive_entry entries) with (@nil entry); [reflexivity|].
    symmetry. clear -Hplain.
    induction entries as [|e es IH]; [reflexivity|].
    cbn [List.filter].
    rewrite IH by (intros e' He'; apply Hplain; now right).
    unfold is_sensitive_entry.
    destruct (is_file e) eqn:Hf; [|reflexivity]. cbn [andb].
    destruct (Hplain e (or_introl eq_refl) Hf) as (Hb & Hp & Hc).
    now rewrite (is_sensitive_spec _ Hb), Hp, Hc. }
  split; [exact Hnone|].
  unfold Engine.analyze_project_and_recommend.
  eapply Permutation_Forall; [apply sort_desc_perm|].
  assert (Hhigh : Forall (fun r => Engine.priority r = "high" \/ Engine.priority r = "medium")
                    (Engine.collected (project_of entries logs roots) technologies existing))
    by (apply collected_without_sensitive_files; exact Hnone).
  assert (Htitle : Forall (fun r => Engine.title r <> "Sensitive Files Detected")
                    (Engine.collected (project_of entries logs roots) technologies existing)).
  { unfold Engine.collected, Engine._generate_security_recommendations,
      Engine._generate_performance_recommendations,
      Engine._generate_best_practice_recommendations.
    cbn [project_of Engine.sensitive_files]. rewrite Hnone.
    cbn [Engine.is_nil app]. cbv zeta.
    assert (Hone : forall (b : bool) (r : Engine.Recommendation),
               Engine.title r <> "Sensitive Files Detected" ->
               Forall (fun r => Engine.title r <> "Sensitive Files Detected")
                      (if b then [] else [r])).
    { intros [] r Hr; [constructor | constructor; [exact Hr | constructor]]. }
    repeat (apply Forall_app; split); try (apply Hone; discriminate).
    clear. induction technologies as [|tech rest IH]; [constructor|].
    cbn [Engine._generate_technology_recommendations].
    apply Forall_app; split; [|exact IH].
    destruct (Engine.patterns_of tech); [|constructor].
    destruct (Engine.is_nil _); [constructor|]. constructor; [|constructor].
    cbn [Engine.technology_recommendation Engine.title].
    intros H. apply (f_equal PyStr.rev) in H.
    revert H. generalize (PyStr.title tech). intros s H.
    apply (f_equal (fun x => String.get 0 x)) in H.
    unfold PyStr.rev in H.
    assert (Hrev : forall a b, PyStr.rev_onto (a +:+ b) EmptyString
                               = PyStr.rev_onto b (PyStr.rev_onto a EmptyString)).
    { intros a b. generalize EmptyString.
      induction a as [|c a IHa]; intros acc; [reflexivity|].
      change (String c a +:+ b) with (String c (a +:+ b)). cbn [PyStr.rev_onto].
      apply IHa. }
    rewrite Hrev in H.
    assert (Hhead : forall b acc, b <> EmptyString ->
               String.get 0 (PyStr.rev_onto b acc) = String.get 0 (PyStr.rev_onto b EmptyString)).
    { induction b as [|c b IHb]; intros acc Hb; [contradiction|].
      cbn [PyStr.rev_onto]. destruct b as [|c' b']; [reflexivity|].
      rewrite (IHb (String c acc)) by discriminate.
      now rewrite (IHb (String c EmptyString)) by discriminate. }
    rewrite Hhead in H by discriminate. vm_compute in H. discriminate H. }
  rewrite Forall_forall in Hhigh, Htitle. apply Forall_forall. intros r Hr.
  split; [|now apply Htitle].
  destruct (Hhigh r Hr) as [-> | ->]; discriminate.
Qed.

(** X26, the theorem at a project that holds [.env], [server.key] and
    [secrets.yaml]. *)
Lemma plain_names_raise_no_alarm_witness :
  let entries :=
    [ {| e_path := "proj/.env"; e_kind := IsFile 120 |};
      {| e_path := "proj/certs"; e_kind := IsDir |};
      {| e_path := "proj/certs/server.key"; e_kind := IsFile 1704 |};
      {| e_path := "proj/secrets.yaml"; e_kind := IsFile 64 |} ] in
  a_sensitive_files (_analyze_project_structure entries) = [] /\
  Engine.analyze_project_and_recommend (project_of entries [] ["certs"]) [] None = [].
Proof.
  intros entries.
  assert (Hplain : forall e, In e entries -> is_file e = true ->
            let name := path_name (e_path e) in
            any_char (Ascii.eqb backslash) name = false
            /\ contains "password" (lower name) = false
            /\ contains "credential" (lower name) = false).
  { intros e He _.
    repeat (destruct He as [<-|He]; [repeat split|]). destruct He. }
  destruct (plain_names_raise_no_alarm entries [] ["certs"] [] None Hplain) as [H _].
  split; [exact H|]. vm_compute. reflexivity.
Defined.

(** C6, on the code.  A project directory that holds the file [.env], one
    log file and the directory [build], analysed with the detected
    technology [python] and no existing ignore text: [_is_sensitive_file]
    does not take [.env] for a sensitive file, the analysis finds no
    sensitive file, and the result holds the recommendation on build
    directories, the one on the python patterns and the one on log files,
    in this order, and no recommendation of critical priority.  The three
    other signals of the scenario are there: one log file, a build
    directory, and the nine python patterns reported as missing. *)
Theorem scenario_directory_gets_no_critical_entry :
  let entries :=
    [ {| e_path := "proj/.env"; e_kind := IsFile 20 |};
      {| e_path := "proj/app.log"; e_kind := IsFile 300 |};
      {| e_path := "proj/build"; e_kind := IsDir |} ] in
  let p := project_of entries ["proj/app.log"] ["build"] in
  let out := analyze_directory entries ["proj/app.log"] ["build"] ["python"] None in
  _is_sensitive_file ".env" = false /\
  Engine.sensitive_files p = [] /\
  length (Engine.log_files p) = 1 /\
  Engine.build_dirs p = ["build"] /\
  map (fun r => (Engine.priority r, Engine.category r, Engine.title r,
                 Engine.description r)) out
  = [ ("high", "best_practice", "Build Output Directories",
       "Found 1 build output directories");
      ("high", "best_practice", "Python Best Practices",
       "Missing 9 recommended patterns for python");
      ("medium", "best_practice", "Log Files", "Found 1 log files") ] /\
  Forall (fun r => Engine.priority r <> "critical"
                   /\ Engine.category r <> "security") out.
Proof.
  cbv zeta. split; [reflexivity|]. split; [reflexivity|]. split; [reflexivity|].
  split; [reflexivity|].
  assert (Hout :
    map (fun r => (Engine.priority r, Engine.category r, Engine.title r,
                   Engine.description r))
        (analyze_directory
           [ {| e_path := "proj/.env"; e_kind := IsFile 20 |};
             {| e_path := "proj/app.log"; e_kind := IsFile 300 |};
             {| e_path := "proj/build"; e_kind := IsDir |} ]
           ["proj/app.log"] ["build"] ["python"] None)
    = [ ("high", "best_practice", "Build Output Directories",
         "Found 1 build output directories");
        ("high", "best_practice", "Python Best Practices",
         "Missing 9 recommended patterns for python");
        ("medium", "best_practice", "Log Files", "Found 1 log files") ])
    by (vm_compute; reflexivity).
  split; [exact Hout|].
  apply Forall_forall. intros r Hr. apply list_elem_of_In in Hr.
  apply (in_map (fun r => (Engine.priority r, Engine.category r, Engine.title r,
                           Engine.description r))) in Hr.
  rewrite Hout in Hr.
  repeat (destruct Hr as [Hr|Hr]; [injection Hr as <- <- _ _; split; discriminate|]).
  destruct Hr.
Qed.

End StructureClaims.
